(** * statistics.py: result-file parsing, parameter normalisation, aggregation

    A shallow embedding of [SmartCampusExperimentStatistics] (Python 2) and
    the properties its specification states about it.

    Python objects live in an explicit store: every dict is a heap cell that
    values refer to by location, so that in-place mutation and aliasing are
    visible.  Exceptions and the mutable state are threaded by a small
    state-and-exception monad. *)

From Stdlib Require Import ZArith Ascii String List.
From Stdlib Require Import Floats.SpecFloat.
From stdpp Require Import gmap strings list fin_maps.

Set Warnings "-register-all".

Local Open Scope string_scope.
Local Open Scope Z_scope.

(** ** Strings: the [str] methods and [os.path] functions the code calls *)

Module PyStr.

Definition slash : ascii := "/"%char.

(** [s.split(sep)] for a one-character separator. *)
Fixpoint split (sep : ascii) (s : string) : list string :=
  match s with
  | EmptyString => [EmptyString]
  | String c s' =>
      if Ascii.eqb c sep then EmptyString :: split sep s'
      else match split sep s' with
           | [] => [String c EmptyString]
           | w :: ws => String c w :: ws
           end
  end.

Fixpoint contains (c : ascii) (s : string) : bool :=
  match s with
  | EmptyString => false
  | String c' s' => Ascii.eqb c' c || contains c s'
  end.

Definition startswith (p s : string) : bool := String.prefix p s.

Definition rev (s : string) : string :=
  string_of_list_ascii (List.rev (list_ascii_of_string s)).

Definition endswith (suf s : string) : bool := String.prefix (rev suf) (rev s).

Fixpoint lstrip (c : ascii) (s : string) : string :=
  match s with
  | String c' s' => if Ascii.eqb c' c then lstrip c s' else s
  | EmptyString => EmptyString
  end.

Definition rstrip (c : ascii) (s : string) : string := rev (lstrip c (rev s)).

(** [s[: s.rfind(c) + 1]]: everything up to and including the last [c]. *)
Fixpoint upto_last (c : ascii) (s : string) : string :=
  match s with
  | EmptyString => EmptyString
  | String c' s' =>
      match upto_last c s' with
      | EmptyString => if Ascii.eqb c' c then String c' EmptyString else EmptyString
      | r => String c' r
      end
  end.

Fixpoint all_are (c : ascii) (s : string) : bool :=
  match s with
  | EmptyString => true
  | String c' s' => Ascii.eqb c' c && all_are c s'
  end.

Definition is_empty (s : string) : bool :=
  match s with EmptyString => true | _ => false end.

End PyStr.

Module OsPath.

(** posixpath.dirname:
    [i = p.rfind('/') + 1; head = p[:i];
     if head and head != '/'*len(head): head = head.rstrip('/')]. *)
Definition dirname (p : string) : string :=
  let head := PyStr.upto_last PyStr.slash p in
  if negb (PyStr.is_empty head) && negb (PyStr.all_are PyStr.slash head)
  then PyStr.rstrip PyStr.slash head
  else head.

(** posixpath.join with two components. *)
Definition join (a b : string) : string :=
  if PyStr.startswith "/" b then b
  else if PyStr.is_empty a || PyStr.endswith "/" a then a ++ b
  else a ++ "/" ++ b.

End OsPath.

(** ** Floating-point numbers: [float(str)]

    Python floats are IEEE binary64 values, here [spec_float] at precision
    53; [of_string] reads a decimal literal as [float] does in Python 2:
    surrounding white space, a sign, [inf]/[infinity]/[nan] in any case, or
    digits with an optional fraction and exponent, rounded to nearest
    even. *)

Module PyFloat.

Definition float := spec_float.
Definition prec := 53.
Definition emax := 1024.

Definition is_space (c : ascii) : bool :=
  let n := nat_of_ascii c in
  (Nat.eqb n 32 || (Nat.leb 9 n && Nat.leb n 13))%nat.

Definition is_digit (c : ascii) : bool :=
  let n := nat_of_ascii c in (Nat.leb 48 n && Nat.leb n 57)%nat.

Definition lower (c : ascii) : ascii :=
  let n := nat_of_ascii c in
  if (Nat.leb 65 n && Nat.leb n 90)%nat then ascii_of_nat (n + 32) else c.

Fixpoint span_digits (cs : list ascii) : list ascii * list ascii :=
  match cs with
  | c :: cs' =>
      if is_digit c then let '(ds, r) := span_digits cs' in (c :: ds, r)
      else ([], cs)
  | [] => ([], [])
  end.

Definition digits_value (ds : list ascii) : Z :=
  fold_left (fun acc c => 10 * acc + (Z.of_nat (nat_of_ascii c) - 48)) ds 0.

Fixpoint drop_spaces (cs : list ascii) : list ascii :=
  match cs with
  | c :: cs' => if is_space c then drop_spaces cs' else cs
  | [] => []
  end.

Definition strip (cs : list ascii) : list ascii :=
  List.rev (drop_spaces (List.rev (drop_spaces cs))).

Definition take_sign (cs : list ascii) : bool * list ascii :=
  match cs with
  | "-"%char :: r => (true, r)
  | "+"%char :: r => (false, r)
  | _ => (false, cs)
  end.

(** The decimal number [m * 10^e], correctly rounded. *)
Definition of_decimal (neg : bool) (m e : Z) : float :=
  match m with
  | Zpos p =>
      if 0 <=? e
      then binary_normalize prec emax (cond_Zopp neg (m * 10 ^ e)) 0 neg
      else SFdiv prec emax (S754_finite neg p 0)
                 (S754_finite false (Z.to_pos (10 ^ (- e))) 0)
  | _ => S754_zero neg
  end.

Definition exponent (cs : list ascii) : option Z :=
  match cs with
  | [] => Some 0
  | c :: r =>
      if Ascii.eqb (lower c) "e" then
        let '(neg, r) := take_sign r in
        match span_digits r with
        | ((_ :: _) as ds, []) => Some (cond_Zopp neg (digits_value ds))
        | _ => None
        end
      else None
  end.

Definition of_chars (cs : list ascii) : option float :=
  let '(neg, body) := take_sign (strip cs) in
  let word := string_of_list_ascii (map lower body) in
  if String.eqb word "inf" || String.eqb word "infinity" then Some (S754_infinity neg)
  else if String.eqb word "nan" then Some S754_nan
  else
    let '(ip, r1) := span_digits body in
    let '(fp, r2) := match r1 with
                     | "."%char :: r => span_digits r
                     | _ => ([], r1)
                     end in
    match (ip ++ fp)%list with
    | [] => None
    | ds => match exponent r2 with
            | Some e => Some (of_decimal neg (digits_value ds) (e - Z.of_nat (List.length fp)))
            | None => None
            end
    end.

Definition of_string (s : string) : option float :=
  of_chars (list_ascii_of_string s).

(** Truth value of a float: zero (of either sign) is false, NaN is true. *)
Definition nonzero (f : float) : bool :=
  match f with S754_zero _ => false | _ => true end.

End PyFloat.

(** ** Python values and the object store *)

Definition loc := positive.

(** Values as [json.load] builds them, plus references.  A dict is a store
    cell ([PDict l]); lists are never mutated by this program and are kept
    as values.  [PStats i] refers to the [i]-th [SeismicStatistics]
    instance. *)
Inductive pyval :=
| PNone
| PBool (b : bool)
| PInt (z : Z)
| PFloat (f : PyFloat.float)
| PStr (s : string)
| PList (vs : list pyval)
| PDict (l : loc)
| PStats (i : nat).

Abbreviation dict := (gmap string pyval).
Abbreviation heap := (gmap loc (gmap string pyval)).

Definition is_None (v : pyval) : bool :=
  match v with PNone => true | _ => false end.

(** [isinstance(v, basestring)] *)
Definition is_basestring (v : pyval) : bool :=
  match v with PStr _ => true | _ => false end.

(** [v == s] for a string literal [s]. *)
Definition eq_str (v : pyval) (s : string) : bool :=
  match v with PStr s' => String.eqb s' s | _ => false end.

(** Truth value, as [not v] and [if v] compute it. *)
Definition truthy (h : heap) (v : pyval) : bool :=
  match v with
  | PNone => false
  | PBool b => b
  | PInt z => negb (z =? 0)
  | PFloat f => PyFloat.nonzero f
  | PStr s => negb (PyStr.is_empty s)
  | PList vs => match vs with [] => false | _ => true end
  | PDict l => match h !! l with
               | Some d => negb (bool_decide (d = ∅))
               | None => false
               end
  | PStats _ => true
  end.

(** Decoded JSON text, before [json.load] turns it into objects.  An object
    keeps its members in document order; a repeated key takes the last
    value. *)
Inductive json :=
| JNull
| JBool (b : bool)
| JInt (z : Z)
| JFloat (f : PyFloat.float)
| JStr (s : string)
| JArr (js : list json)
| JObj (members : list (string * json)).

Section Decode.
Variable decode : json -> heap -> pyval * heap.

Fixpoint decode_elems (js : list json) (h : heap) : list pyval * heap :=
  match js with
  | [] => ([], h)
  | j :: js' =>
      let '(v, h1) := decode j h in
      let '(vs, h2) := decode_elems js' h1 in
      (v :: vs, h2)
  end.

Fixpoint decode_members (kvs : list (string * json)) (d : dict) (h : heap)
  : dict * heap :=
  match kvs with
  | [] => (d, h)
  | (k, j) :: kvs' =>
      let '(v, h1) := decode j h in
      decode_members kvs' (<[k:=v]> d) h1
  end.
End Decode.

Definition alloc (d : dict) (h : heap) : loc * heap :=
  let l := fresh (dom h) in (l, <[l:=d]> h).

(** The objects [json.load] builds: children first, each JSON object a new
    dict. *)
Fixpoint json_decode (j : json) (h : heap) : pyval * heap :=
  match j with
  | JNull => (PNone, h)
  | JBool b => (PBool b, h)
  | JInt z => (PInt z, h)
  | JFloat f => (PFloat f, h)
  | JStr s => (PStr s, h)
  | JArr js =>
      let '(vs, h1) := decode_elems json_decode js h in (PList vs, h1)
  | JObj kvs =>
      let '(d, h1) := decode_members json_decode kvs ∅ h in
      let '(l, h2) := alloc d h1 in (PDict l, h2)
  end.

(** ** Exceptions, log records, the external statistics object, state *)

Inductive exn :=
| KeyError (key : pyval)
| IndexError
| ValueError
| TypeError
| AttributeError
| AssertionError
| NotImplementedError (msg : string)
| SystemExit (code : Z)
| IOError
| OSError
| DanglingReference.  (* a location outside the store: no Python run reaches it *)

Inductive level := DEBUG | WARNING | ERROR.

(** A logging call: level, format string and the values formatted into it. *)
Record log_record := Log { log_level : level; log_format : string; log_args : list pyval }.

(** Modelled from the spec: the external Statistics Aggregator
    ([seismic_warning_test.statistics.SeismicStatistics], whose source is not
    part of these files).  The spec describes it as constructed from an
    ordered sequence of resolved output directories and exposing an
    incremental-merge operation accepting an additional directory sequence
    plus the normalized parameters as keyword options.  An instance is
    represented by the calls it has received, in order; both operations are
    taken to return normally. *)
Inductive stats_call :=
| Construct (dirs : list string)
| ParseAll (dirs : option (list string)) (kwargs : dict).

Abbreviation stats_object := (list stats_call).

Record state := State {
  st_heap : heap;
  st_instances : list stats_object;   (* every SeismicStatistics ever constructed *)
  st_log : list log_record;
  self_experiment_type : pyval;       (* self.experiment_type *)
  self_stats : option nat             (* self.stats: None or an instance *)
}.

Definition set_heap (h : heap) (st : state) : state :=
  State h (st_instances st) (st_log st) (self_experiment_type st) (self_stats st).
Definition set_instances (insts : list stats_object) (st : state) : state :=
  State (st_heap st) insts (st_log st) (self_experiment_type st) (self_stats st).
Definition add_log (r : log_record) (st : state) : state :=
  State (st_heap st) (st_instances st) (st_log st ++ [r])%list
        (self_experiment_type st) (self_stats st).
Definition set_experiment_type (v : pyval) (st : state) : state :=
  State (st_heap st) (st_instances st) (st_log st) v (self_stats st).
Definition set_stats (s : option nat) (st : state) : state :=
  State (st_heap st) (st_instances st) (st_log st) (self_experiment_type st) s.

(** ** The monad: state that survives an exception *)

Inductive outcome (A : Type) :=
| Return (a : A)
| Raise (e : exn).
Arguments Return {A} a.
Arguments Raise {A} e.

Definition M (A : Type) : Type := state -> outcome A * state.

Definition ret {A} (a : A) : M A := fun st => (Return a, st).
Definition raise {A} (e : exn) : M A := fun st => (Raise e, st).
Definition bind {A B} (m : M A) (k : A -> M B) : M B :=
  fun st => match m st with
            | (Return a, st') => k a st'
            | (Raise e, st') => (Raise e, st')
            end.

Notation "'let!' x ':=' m 'in' k" := (bind m (fun x => k))
  (at level 10, x pattern, m at level 100, k at level 200).
Notation "m ';;' k" := (bind m (fun _ => k))
  (at level 100, k at level 200, right associativity).

Definition get_state : M state := fun st => (Return st, st).
Definition modify (f : state -> state) : M unit := fun st => (Return tt, f st).

Fixpoint for_each {A} (body : A -> M unit) (xs : list A) : M unit :=
  match xs with
  | [] => ret tt
  | x :: xs' => body x ;; for_each body xs'
  end.

Fixpoint map_M {A B} (f : A -> M B) (xs : list A) : M (list B) :=
  match xs with
  | [] => ret []
  | x :: xs' => let! y := f x in let! ys := map_M f xs' in ret (y :: ys)
  end.

Definition log (lv : level) (fmt : string) (args : list pyval) : M unit :=
  modify (add_log (Log lv fmt args)).

(** ** Dict and container operations *)

Definition load (l : loc) : M dict :=
  fun st => match st_heap st !! l with
            | Some d => (Return d, st)
            | None => (Raise DanglingReference, st)
            end.

Definition store (l : loc) (d : dict) : M unit :=
  modify (fun st => set_heap (<[l:=d]> (st_heap st)) st).

(** [d[k]] *)
Definition dict_getitem (l : loc) (k : string) : M pyval :=
  let! d := load l in
  match d !! k with
  | Some v => ret v
  | None => raise (KeyError (PStr k))
  end.

(** [d.get(k, default)] *)
Definition dict_get (l : loc) (k : string) (default : pyval) : M pyval :=
  let! d := load l in
  ret (match d !! k with Some v => v | None => default end).

(** [d[k] = v] *)
Definition dict_setitem (l : loc) (k : string) (v : pyval) : M unit :=
  let! d := load l in store l (<[k:=v]> d).

(** [d.pop(k)] *)
Definition dict_pop (l : loc) (k : string) : M pyval :=
  let! d := load l in
  match d !! k with
  | Some v => store l (delete k d) ;; ret v
  | None => raise (KeyError (PStr k))
  end.

(** [del d[k]] *)
Definition dict_delitem (l : loc) (k : string) : M unit :=
  let! d := load l in
  match d !! k with
  | Some _ => store l (delete k d)
  | None => raise (KeyError (PStr k))
  end.

(** [d.items()]: in Python 2 a list, a snapshot taken before the loop. *)
Definition dict_items (l : loc) : M (list (string * pyval)) :=
  let! d := load l in ret (map_to_list d).

(** Sequence index with Python's negative wrap-around. *)
Definition seq_index {A} (xs : list A) (i : Z) : option A :=
  let n := Z.of_nat (List.length xs) in
  let j := if i <? 0 then i + n else i in
  if (0 <=? j) && (j <? n) then nth_error xs (Z.to_nat j) else None.

Definition char_at (s : string) (i : Z) : option pyval :=
  match seq_index (list_ascii_of_string s) i with
  | Some c => Some (PStr (String c EmptyString))
  | None => None
  end.

Definition of_index {A} (o : option A) : M A :=
  match o with Some v => ret v | None => raise IndexError end.

(** [o[k]] on any value. *)
Definition py_getitem (o k : pyval) : M pyval :=
  match o with
  | PDict l =>
      match k with
      | PStr key => dict_getitem l key
      | PList _ | PDict _ => raise TypeError              (* unhashable key *)
      | _ => load l ;; raise (KeyError k)    (* keys are all strings *)
      end
  | PList vs =>
      match k with
      | PInt i => of_index (seq_index vs i)
      | PBool b => of_index (seq_index vs (if b then 1 else 0))
      | _ => raise TypeError
      end
  | PStr s =>
      match k with
      | PInt i => of_index (char_at s i)
      | PBool b => of_index (char_at s (if b then 1 else 0))
      | _ => raise TypeError
      end
  | _ => raise TypeError
  end.

(** The elements a [for] loop over [o] visits. *)
Definition py_iter (o : pyval) : M (list pyval) :=
  match o with
  | PList vs => ret vs
  | PDict l => let! d := load l in ret (map (fun kv => PStr (fst kv)) (map_to_list d))
  | PStr s => ret (map (fun c => PStr (String c EmptyString)) (list_ascii_of_string s))
  | _ => raise TypeError
  end.

(** [s.split('/')]: only strings have the method. *)
Definition py_split (v : pyval) : M (list string) :=
  match v with
  | PStr s => ret (PyStr.split PyStr.slash s)
  | _ => raise AttributeError
  end.

(** [float(s)] for a string [s]. *)
Definition py_float (s : string) : M PyFloat.float :=
  match PyFloat.of_string s with
  | Some f => ret f
  | None => raise ValueError
  end.

(** [os.path.join(a, b)]: [b] must have [startswith]. *)
Definition os_path_join (a : string) (b : pyval) : M string :=
  match b with
  | PStr s => ret (OsPath.join a s)
  | _ => raise AttributeError
  end.

(** ** class SmartCampusExperimentStatistics *)

(** [self.stats = None; self.experiment_type = None] over an empty store. *)
Definition init : state := State ∅ [] [] PNone None.

(** The null-clearing loop of [extract_parameters]:
    [for k,v in exp_params.items(): if v is None: del exp_params[k]]. *)
Definition clear_null (exp_params : loc) (kv : string * pyval) : M unit :=
  if is_None (snd kv)
  then log DEBUG "deleting null parameter: %s" [PStr (fst kv)] ;;
       dict_delitem exp_params (fst kv)
  else ret tt.

(** [exp_params] is the location of the raw parameter dict; [experiment_type]
    is the optional argument, [PNone] when omitted. *)
Definition extract_parameters (exp_params : loc) (experiment_type : pyval) : M pyval :=
  let! experiment_type :=
    (if is_None experiment_type
     then (let! st := get_state in ret (self_experiment_type st))
     else ret experiment_type) in
  (* renames common to all experiment types *)
  let! v := dict_pop exp_params "heuristic" in
  dict_setitem exp_params "const_alg" v ;;
  let! v := dict_pop exp_params "experiment_type" in
  dict_setitem exp_params "exp_type" v ;;
  let! fm := dict_pop exp_params "failure_model" in
  let! parts := py_split fm in
  let! prob := of_index (seq_index parts 1) in
  let! f := py_float prob in
  dict_setitem exp_params "fprob" (PFloat f) ;;
  let! topo := dict_getitem exp_params "topo" in
  (if is_basestring topo then ret tt
   else
     let! topo := dict_getitem exp_params "topo" in
     let! name := py_getitem topo (PInt 1) in
     dict_setitem exp_params "topo" name ;;
     let! topo := dict_getitem exp_params "topo" in
     if is_basestring topo then ret tt else raise AssertionError) ;;
  let! items := dict_items exp_params in
  for_each (clear_null exp_params) items ;;
  if eq_str experiment_type "mininet" then
    let! v := dict_pop exp_params "tree_choosing_heuristic" in
    dict_setitem exp_params "select_policy" v ;;
    let! n := dict_get exp_params "n_traffic_generators" PNone in
    let! st := get_state in
    (if negb (truthy (st_heap st) n)
     then dict_delitem exp_params "n_traffic_generators" ;;
          dict_delitem exp_params "traffic_generator_bandwidth"
     else ret tt) ;;
    ret (PDict exp_params)
  else if eq_str experiment_type "networkx" then
    raise (NotImplementedError "netx parsing not supported yet!")
  else
    log ERROR "unrecognized 'experiment_type' %s. Aborting." [experiment_type] ;;
    raise (SystemExit 1).

Definition no_filename_warning : string :=
  "no filename specified! assuming the 'outputs_dir' for each run in results is relative to current working directory!".

(** [MininetSeismicStatistics(dirs=...)]: a new instance. *)
Definition MininetSeismicStatistics (dirs : list string) : M nat :=
  fun st => (Return (List.length (st_instances st)),
             set_instances (st_instances st ++ [[Construct dirs]])%list st).

(** [stats.parse_all(dirs, **kwargs)] on instance [i]. *)
Definition stats_parse_all (i : nat) (dirs : option (list string)) (kwargs : dict) : M unit :=
  fun st => match st_instances st !! i with
            | Some calls =>
                (Return tt,
                 set_instances (<[i := (calls ++ [ParseAll dirs kwargs])%list]> (st_instances st)) st)
            | None => (Raise DanglingReference, st)
            end.

(** One element of [dirs_to_parse]:
    [os.path.join(this_path, run['outputs_dir'])]. *)
Definition resolve_run (this_path : string) (run : pyval) : M string :=
  let! out := py_getitem run (PStr "outputs_dir") in
  os_path_join this_path out.

(** [filename] is [None] when the keyword is omitted; [exp_params] are the
    remaining keyword arguments. *)
Definition extract_stats_from_results (results : pyval) (filename : option string)
    (experiment_type : pyval) (exp_params : dict) : M pyval :=
  let! experiment_type :=
    (if is_None experiment_type
     then (let! st := get_state in ret (self_experiment_type st))
     else ret experiment_type) in
  if eq_str experiment_type "mininet" then
    let! filename :=
      match filename with
      | None =>
          log WARNING no_filename_warning [] ;;
          ret ""
      | Some f => ret f
      end in
    let this_path := OsPath.dirname filename in
    let! runs := py_iter results in
    let! dirs_to_parse := map_M (resolve_run this_path) runs in
    let! st := get_state in
    match self_stats st with
    | None =>
        let! s := MininetSeismicStatistics dirs_to_parse in
        modify (set_stats (Some s)) ;;
        stats_parse_all s None exp_params
    | Some s => stats_parse_all s (Some dirs_to_parse) exp_params
    end ;;
    let! st := get_state in
    ret (match self_stats st with Some s => PStats s | None => PNone end)
  else if eq_str experiment_type "networkx" then
    raise (NotImplementedError "netx parsing not supported yet!")
  else
    log ERROR "unrecognized 'experiment_type' %s. Aborting." [experiment_type] ;;
    raise (SystemExit 1).

(** [record_stats]: [pass]. *)
Definition record_stats (results : pyval) (filename : string) : M unit := ret tt.

(** The call [self.extract_stats_from_results(results, filename=fname, **params)]:
    the dict is expanded into keywords; one that names a parameter already
    given is a TypeError, [experiment_type] binds the named parameter and
    the rest become [exp_params]. *)
Definition call_extract_stats (results : pyval) (fname : string) (params : pyval) : M pyval :=
  match params with
  | PDict l =>
      let! kw := load l in
      if bool_decide (is_Some (kw !! "self")) || bool_decide (is_Some (kw !! "results"))
         || bool_decide (is_Some (kw !! "filename"))
      then raise TypeError
      else extract_stats_from_results results (Some fname)
             (default PNone (kw !! "experiment_type")) (delete "experiment_type" kw)
  | _ => raise TypeError
  end.

(** [x.get(k, default)] on any value: only dicts have the method. *)
Definition py_get (o : pyval) (k : string) (default : pyval) : M pyval :=
  match o with
  | PDict l => dict_get l k default
  | _ => raise AttributeError
  end.

(** What the files hold.  A file's text is represented by what [json.load]
    makes of it: the decoded document, or the message of the [ValueError]. *)
Inductive file_content :=
| NotJSON (err : string)
| IsJSON (doc : json).

Record filesystem := {
  listdir : string -> option (list string);   (* os.listdir; None: OSError *)
  isfile : string -> bool;                    (* os.path.isfile *)
  content : string -> option file_content     (* open; None: IOError *)
}.

Definition json_load (doc : json) : M pyval :=
  fun st => let '(v, h) := json_decode doc (st_heap st) in (Return v, set_heap h st).

Section Files.
Variable fs : filesystem.

Definition parse_file (fname : string) : M pyval :=
  log DEBUG "parsing file: %s" [PStr fname] ;;
  match content fs fname with
  | None => raise IOError
  | Some (NotJSON err) =>
      log DEBUG "Skipping file %s that raised error: %s" [PStr fname; PStr err] ;;
      ret PNone
  | Some (IsJSON doc) =>
      let! data := json_load doc in
      let! params := py_getitem data (PStr "params") in
      let! results := py_getitem data (PStr "results") in
      let! p := py_getitem data (PStr "params") in
      let! et := py_get p "experiment_type" (PStr "networkx") in
      modify (set_experiment_type et) ;;
      let! params :=
        match params with
        | PDict l => extract_parameters l PNone
        | _ => raise AttributeError
        end in
      let! results := call_extract_stats results fname params in
      record_stats results fname ;;
      ret results
  end.

(** The body of the loop of [parse_dir]. *)
Definition parse_entry (dirname filename : string) : M unit :=
  let filename := OsPath.join dirname filename in
  if PyStr.endswith ".progress" filename || negb (isfile fs filename)
  then ret tt
  else parse_file filename ;; ret tt.

Definition parse_dir (dirname : string) : M unit :=
  log DEBUG "parsing dir: %s" [PStr dirname] ;;
  match listdir fs dirname with
  | None => raise OSError
  | Some names => for_each (parse_entry dirname) names
  end.

(** [dirs] is [config.dirs] ([None] unless [--dirs] is given), [files] is
    [config.files]. *)
Definition parse_all (dirs : option (list string)) (files : list string) : M unit :=
  match dirs with
  | Some ds => for_each parse_dir ds
  | None => for_each (fun fname => parse_file fname ;; ret tt) files
  end.

End Files.

(** ** Notions the properties are stated with *)

(** Cell [l] of the store replaced by [d]. *)
Definition upd (l : loc) (d : dict) (st : state) : state :=
  set_heap (<[l:=d]> (st_heap st)) st.

(** What a call leaves alone when it only touches the store and the log. *)
Definition frame (st st' : state) : Prop :=
  st_instances st' = st_instances st
  ∧ self_stats st' = self_stats st
  ∧ self_experiment_type st' = self_experiment_type st.

Definition keep_value (v : pyval) : option pyval :=
  if is_None v then None else Some v.

(** The dict without its null-valued keys. *)
Definition drop_nulls (d : dict) : dict := omap keep_value d.

(** The experiment type a method works with: the argument, or
    [self.experiment_type] when it is omitted. *)
Definition effective_type (et : pyval) (st : state) : pyval :=
  if is_None et then self_experiment_type st else et.

(** The string [topo] is reduced to. *)
Definition topo_name (v : pyval) : option string :=
  match v with
  | PStr t => Some t
  | PList vs => match seq_index vs 1 with
                | Some (PStr t) => Some t
                | _ => None
                end
  | _ => None
  end.

(** The renames and derivations common to all experiment types. *)
Definition renamed (d : dict) (hv ev : pyval) (f : PyFloat.float) (t : string) : dict :=
  <["topo" := PStr t]>
    (<["fprob" := PFloat f]>
       (delete "failure_model"
          (<["exp_type" := ev]>
             (delete "experiment_type"
                (<["const_alg" := hv]> (delete "heuristic" d)))))).

Definition with_select_policy (d : dict) (sp : pyval) : dict :=
  <["select_policy" := sp]> (delete "tree_choosing_heuristic" d).

Definition without_traffic (d : dict) : dict :=
  delete "traffic_generator_bandwidth" (delete "n_traffic_generators" d).

(** The test [exp_params.get("n_traffic_generators")] of the mininet branch,
    made when cell [l] holds [d]. *)
Definition n_traffic_truthy (l : loc) (st : state) (d : dict) : bool :=
  truthy (<[l:=d]> (st_heap st)) (default PNone (d !! "n_traffic_generators")).

(** The [topo] statement of [extract_parameters], once [exp_params['topo']]
    has been read: a string is kept, a sequence gives its second element,
    which must be a string. *)
Definition topo_step (exp_params : loc) (topo : pyval) : M unit :=
  if is_basestring topo then ret tt
  else
    let! topo := dict_getitem exp_params "topo" in
    let! name := py_getitem topo (PInt 1) in
    dict_setitem exp_params "topo" name ;;
    let! topo := dict_getitem exp_params "topo" in
    if is_basestring topo then ret tt else raise AssertionError.

(** What a reader finds behind member [k] of the dict at [l2], when that
    member is itself a dict: the contents of [d[k]]. *)
Definition member_contents (h : heap) (l2 : loc) (k : string) : option dict :=
  d2 ← h !! l2;
  v ← d2 !! k;
  match v with
  | PDict l => h !! l
  | _ => None
  end.

(** ** Concrete inputs *)

(** The float [0.25]. *)
Definition quarter : PyFloat.float := S754_finite false 4503599627370496 (-54).

(** A state whose only object is the dict [d], at location 1. *)
Definition at_cell (d : dict) : state := set_heap {[1%positive := d]} init.

(** The raw mapping of the spec's worked example. *)
Definition raw_example : dict :=
  list_to_map
    [("failure_model", PStr "uniform/0.25"); ("heuristic", PStr "steiner");
     ("experiment_type", PStr "mininet");
     ("topo", PList [PStr "reader"; PStr "campus.json"]);
     ("tree_choosing_heuristic", PStr "max-reachable");
     ("n_traffic_generators", PInt 0)].

(** The mapping the spec expects for it. *)
Definition normalized_example : dict :=
  list_to_map
    [("const_alg", PStr "steiner"); ("exp_type", PStr "mininet");
     ("fprob", PFloat quarter); ("topo", PStr "campus.json");
     ("select_policy", PStr "max-reachable")].

(** The same raw mapping without [n_traffic_generators]. *)
Definition raw_no_generators : dict := delete "n_traffic_generators" raw_example.

(** A raw mapping with both traffic keys, the count being zero. *)
Definition raw_both_traffic : dict :=
  <["traffic_generator_bandwidth" := PInt 10]> raw_example.

(** A raw mapping with generators in use, an unset seed and a null
    [fprob] entry. *)
Definition raw_null_fprob : dict :=
  <["fprob" := PNone]>
    (<["random_seed" := PNone]> (<["n_traffic_generators" := PInt 3]> raw_example)).

(** The names [extract_parameters] itself writes. *)
Definition derived_key (k : string) : bool :=
  String.eqb k "const_alg" || String.eqb k "exp_type" || String.eqb k "fprob"
  || String.eqb k "select_policy".

(** A well-formed mininet result document: both traffic keys present, two
    runs. *)
Definition example_params : json :=
  JObj [("failure_model", JStr "uniform/0.25"); ("heuristic", JStr "steiner");
        ("experiment_type", JStr "mininet");
        ("topo", JArr [JStr "reader"; JStr "campus.json"]);
        ("tree_choosing_heuristic", JStr "max-reachable");
        ("n_traffic_generators", JInt 0);
        ("traffic_generator_bandwidth", JInt 10);
        ("random_seed", JNull)].

Definition example_results : json :=
  JArr [JObj [("run", JInt 0); ("outputs_dir", JStr "outputs/run0")];
        JObj [("run", JInt 1); ("outputs_dir", JStr "outputs/run1")]].

Definition example_doc : json :=
  JObj [("params", example_params); ("results", example_results)].

(** A second document of the same experiment, one run. *)
Definition second_doc : json :=
  JObj [("params", example_params);
        ("results", JArr [JObj [("run", JInt 2); ("outputs_dir", JStr "more/run2")]])].

(** A legacy document: well-formed, but written before [experiment_type]
    existed. *)
Definition legacy_doc : json :=
  JObj [("params",
         JObj [("failure_model", JStr "uniform/0.25"); ("heuristic", JStr "steiner");
               ("topo", JArr [JStr "reader"; JStr "campus.json"])]);
        ("results", JArr [])].

(** The same with the type written out. *)
Definition networkx_doc : json :=
  JObj [("params",
         JObj [("failure_model", JStr "uniform/0.25"); ("heuristic", JStr "steiner");
               ("experiment_type", JStr "networkx");
               ("topo", JArr [JStr "reader"; JStr "campus.json"])]);
        ("results", JArr [])].

(** A directory [exp] with an in-progress file, a stray text file and two
    result files, and a few more files beside it. *)
Definition example_fs : filesystem := {|
  listdir d :=
    if String.eqb d "exp"
    then Some ["partial.progress"; "notes.txt"; "results.json"; "second.json"]
    else None;
  isfile f := negb (String.eqb f "exp/outputs");
  content f :=
    if String.eqb f "exp/notes.txt" then Some (NotJSON "No JSON object could be decoded")
    else if String.eqb f "exp/partial.progress" then Some (NotJSON "Expecting object")
    else if String.eqb f "exp/results.json" then Some (IsJSON example_doc)
    else if String.eqb f "exp/second.json" then Some (IsJSON second_doc)
    else if String.eqb f "empty.json" then Some (IsJSON (JObj []))
    else if String.eqb f "legacy.json" then Some (IsJSON legacy_doc)
    else if String.eqb f "networkx.json" then Some (IsJSON networkx_doc)
    else None
|}.

(** The keyword arguments the example documents end up with. *)
Definition example_kwargs : dict :=
  list_to_map
    [("const_alg", PStr "steiner"); ("exp_type", PStr "mininet");
     ("fprob", PFloat quarter); ("topo", PStr "campus.json");
     ("select_policy", PStr "max-reachable")].

(** The log records of a skipped file. *)
Definition skipped (fname err : string) (st : state) : state :=
  add_log (Log DEBUG "Skipping file %s that raised error: %s" [PStr fname; PStr err])
    (add_log (Log DEBUG "parsing file: %s" [PStr fname]) st).

(** ** Notions for the aggregation properties *)

(** The runs of a [results] list and their [outputs_dir] strings. *)
Definition run_outputs (h : heap) (runs : list pyval) (outs : list string) : Prop :=
  Forall2 (fun run o =>
             ∃ li di, run = PDict li ∧ h !! li = Some di
                      ∧ di !! "outputs_dir" = Some (PStr o))
          runs outs.

(** [self.stats] is either unset with no instance ever constructed, or the
    one instance there is. *)
Definition single_aggregate (st : state) : Prop :=
  match self_stats st with
  | None => st_instances st = []
  | Some i => i = 0%nat ∧ List.length (st_instances st) = 1%nat
  end.

(** A computation that leaves the statistics objects and [self.stats]
    alone, whatever its outcome. *)
Definition keeps {A} (m : M A) : Prop :=
  ∀ st r st', m st = (r, st') →
    st_instances st' = st_instances st ∧ self_stats st' = self_stats st.

(** A computation that maintains [single_aggregate], whatever its outcome. *)
Definition preserves {A} (m : M A) : Prop :=
  ∀ st r st', single_aggregate st → m st = (r, st') → single_aggregate st'.

(** A computation that only reads the state. *)
Definition readonly {A} (m : M A) : Prop :=
  ∀ st r st', m st = (r, st') → st' = st.

(** A state holding the two run dicts of the example document. *)
Definition runs_state : state :=
  set_heap
    (<[3%positive := {["run" := PInt 1; "outputs_dir" := PStr "outputs/run1"]}]>
       {[2%positive := {["run" := PInt 0; "outputs_dir" := PStr "outputs/run0"]}]})
    init.

(** ** The normaliser as a function on the dict

    What [extract_parameters] does to the contents of the dict it is given,
    statement by statement, and how it ends: used to state what the method
    computes on every input. *)

(** The outcome of [o[k]] over the store [h]. *)
Definition getitem_outcome (h : heap) (o k : pyval) : outcome pyval :=
  fst (py_getitem o k (set_heap h init)).

(** The [topo] statement on the contents [d] of the dict at [l]. *)
Definition norm_topo (h : heap) (l : loc) (d : dict) : outcome unit * dict :=
  match d !! "topo" with
  | None => (Raise (KeyError (PStr "topo")), d)
  | Some tv =>
      if is_basestring tv then (Return tt, d)
      else match getitem_outcome (<[l:=d]> h) tv (PInt 1) with
           | Raise e => (Raise e, d)
           | Return name =>
               let d' := <["topo":=name]> d in
               if is_basestring name then (Return tt, d') else (Raise AssertionError, d')
           end
  end.

(** The branch on the experiment type [ty]. *)
Definition norm_dispatch (h : heap) (l : loc) (ty : pyval) (d : dict)
  : outcome unit * dict :=
  if eq_str ty "mininet" then
    match d !! "tree_choosing_heuristic" with
    | None => (Raise (KeyError (PStr "tree_choosing_heuristic")), d)
    | Some sp =>
        let d6 := with_select_policy d sp in
        if truthy (<[l:=d6]> h) (default PNone (d6 !! "n_traffic_generators"))
        then (Return tt, d6)
        else match d6 !! "n_traffic_generators" with
             | None => (Raise (KeyError (PStr "n_traffic_generators")), d6)
             | Some _ =>
                 let d7 := delete "n_traffic_generators" d6 in
                 match d7 !! "traffic_generator_bandwidth" with
                 | None => (Raise (KeyError (PStr "traffic_generator_bandwidth")), d7)
                 | Some _ => (Return tt, delete "traffic_generator_bandwidth" d7)
                 end
             end
    end
  else if eq_str ty "networkx"
  then (Raise (NotImplementedError "netx parsing not supported yet!"), d)
  else (Raise (SystemExit 1), d).

(** All of it: how the call ends and what the dict holds then. *)
Definition normal_form (h : heap) (l : loc) (ty : pyval) (d : dict)
  : outcome unit * dict :=
  match d !! "heuristic" with
  | None => (Raise (KeyError (PStr "heuristic")), d)
  | Some hv =>
    let d1 := <["const_alg":=hv]> (delete "heuristic" d) in
    match d1 !! "experiment_type" with
    | None => (Raise (KeyError (PStr "experiment_type")), d1)
    | Some ev =>
      let d2 := <["exp_type":=ev]> (delete "experiment_type" d1) in
      match d2 !! "failure_model" with
      | None => (Raise (KeyError (PStr "failure_model")), d2)
      | Some fm =>
        let d2' := delete "failure_model" d2 in
        match fm with
        | PStr s =>
          match seq_index (PyStr.split PyStr.slash s) 1 with
          | None => (Raise IndexError, d2')
          | Some c =>
            match PyFloat.of_string c with
            | None => (Raise ValueError, d2')
            | Some f =>
              match norm_topo h l (<["fprob":=PFloat f]> d2') with
              | (Raise e, d4) => (Raise e, d4)
              | (Return _, d4) => norm_dispatch h l ty (drop_nulls d4)
              end
            end
          end
        | _ => (Raise AttributeError, d2')
        end
      end
    end
  end.

(** The outcome of the method, given that of the normal form. *)
Definition returned (l : loc) (r : outcome unit) : outcome pyval :=
  match r with
  | Return _ => Return (PDict l)
  | Raise e => Raise e
  end.

(** The names [extract_parameters] reads, writes or deletes by name. *)
Definition normaliser_keys : list string :=
  ["heuristic"; "experiment_type"; "failure_model"; "topo"; "tree_choosing_heuristic";
   "const_alg"; "exp_type"; "fprob"; "select_policy";
   "n_traffic_generators"; "traffic_generator_bandwidth"].

(** The record logged before [exit(1)]. *)
Definition unrecognized_record (ty : pyval) : log_record :=
  Log ERROR "unrecognized 'experiment_type' %s. Aborting." [ty].

(** The dict after the renames and the [fprob] statement. *)
Definition with_fprob (d : dict) (hv ev : pyval) (f : PyFloat.float) : dict :=
  <["fprob" := PFloat f]>
    (delete "failure_model"
       (<["exp_type" := ev]>
          (delete "experiment_type"
             (<["const_alg" := hv]> (delete "heuristic" d))))).

(** How the [topo] statement fails on a value that does not reduce to a
    string: a sequence too short, a second element that is not a string, a
    dict (indexed with the key 1, which no decoded dict has), or a value
    that cannot be indexed. *)
Definition topo_failure (tv : pyval) : option exn :=
  match tv with
  | PStr _ => None
  | PList vs => match seq_index vs 1 with
                | None => Some IndexError
                | Some v => if is_basestring v then None else Some AssertionError
                end
  | PDict _ => Some (KeyError (PInt 1))
  | _ => Some TypeError
  end.

(** A raw dict that passes the statements common to all experiment types up
    to [fprob]. *)
Definition fprob_ready (d : dict) (hv ev : pyval) (f : PyFloat.float) : Prop :=
  d !! "heuristic" = Some hv
  ∧ d !! "experiment_type" = Some ev
  ∧ ∃ s c, d !! "failure_model" = Some (PStr s)
           ∧ seq_index (PyStr.split PyStr.slash s) 1 = Some c
           ∧ PyFloat.of_string c = Some f.

(** The worked example with a one-element [topo]. *)
Definition raw_short_topo : dict := <["topo" := PList [PStr "reader"]]> raw_example.

(** The dict a well-formed mininet mapping is normalised to: the traffic
    keys survive when the count [z] is not zero. *)
Definition mininet_normal_form (d : dict) (hv ev : pyval) (f : PyFloat.float)
    (t : string) (sp : pyval) (z : Z) : dict :=
  let d6 := with_select_policy (drop_nulls (renamed d hv ev f t)) sp in
  if z =? 0 then without_traffic d6 else d6.

(** The worked example with two generators in use and an extra parameter. *)
Definition raw_two_generators : dict :=
  <["publication_period" := PInt 5]>
    (<["n_traffic_generators" := PInt 2]> raw_both_traffic).

(** The worked example under an experiment type the code does not know. *)
Definition raw_quantum : dict := <["experiment_type" := PStr "quantum"]> raw_example.

(** The worked example with further components in [failure_model]. *)
Definition raw_long_model : dict :=
  <["failure_model" := PStr "uniform/0.25/srlg"]> raw_both_traffic.

(** How the [fprob] statement fails on a [failure_model] value: a value
    that is not a string has no [split], a string without a second
    component has no index 1, and a second component that is not a number
    is refused by [float]. *)
Definition failure_model_error (fm : pyval) : option exn :=
  match fm with
  | PStr s =>
      match seq_index (PyStr.split PyStr.slash s) 1 with
      | None => Some IndexError
      | Some c => match PyFloat.of_string c with
                  | None => Some ValueError
                  | Some _ => None
                  end
      end
  | _ => Some AttributeError
  end.

(** The dict after the three pops, [failure_model] gone and no [fprob] yet. *)
Definition popped (d : dict) (hv ev : pyval) : dict :=
  delete "failure_model"
    (<["exp_type" := ev]>
       (delete "experiment_type" (<["const_alg" := hv]> (delete "heuristic" d)))).

(** The worked example with a failure model of one component. *)
Definition raw_no_slash : dict := <["failure_model" := PStr "uniform"]> raw_example.

(** ** Notions for the further properties of the parsing methods *)

(** [self.stats], when set, is one of the instances constructed. *)
Definition aggregate_exists (st : state) : Prop :=
  ∀ j, self_stats st = Some j → is_Some (st_instances st !! j).

(** A state holding two run dicts, the second without [outputs_dir]. *)
Definition broken_runs_state : state :=
  set_heap
    (<[3%positive := {["run" := PInt 1]}]>
       {[2%positive := {["run" := PInt 0; "outputs_dir" := PStr "outputs/run0"]}]})
    init.

(** The names of the parameters of [extract_stats_from_results] that
    [parse_file] binds itself. *)
Definition bound_arguments : list string := ["self"; "results"; "filename"].

(** The worked mapping with a parameter called [filename]. *)
Definition raw_with_filename : dict := <["filename" := PStr "trace.json"]> raw_both_traffic.

(** The paths [parse_dir] hands to [parse_file]: the entries of the listing
    joined to the directory, without those ending in [.progress] and those
    that are not files. *)
Definition eligible (fs : filesystem) (dirname : string) (names : list string)
  : list string :=
  List.filter (fun f => negb (PyStr.endswith ".progress" f) && isfile fs f)
    (map (OsPath.join dirname) names).

(** Two file systems that differ at most in what is inside the entries
    [parse_dir] passes over. *)
Definition same_but_unread (fs fs' : filesystem) : Prop :=
  (∀ d, listdir fs' d = listdir fs d)
  ∧ (∀ f, isfile fs' f = isfile fs f)
  ∧ (∀ f, PyStr.endswith ".progress" f = false → isfile fs f = true →
          content fs' f = content fs f).

(** The example directory once the in-progress file has been completed. *)
Definition example_fs_completed : filesystem := {|
  listdir := listdir example_fs;
  isfile := isfile example_fs;
  content f :=
    if String.eqb f "exp/partial.progress" then Some (IsJSON legacy_doc)
    else content example_fs f
|}.

(** A computation that neither reads nor writes [self.experiment_type]. *)
Definition type_blind {A} (m : M A) : Prop :=
  ∀ v st, m (set_experiment_type v st)
          = (fst (m st), set_experiment_type v (snd (m st)))
          ∧ self_experiment_type (snd (m st)) = self_experiment_type st.

(** A computation whose outcome does not depend on the experiment type
    recorded before it, and whose final state either does not depend on it
    or was left with it. *)
Definition type_forgotten {A} (m : M A) : Prop :=
  ∀ v st,
    fst (m (set_experiment_type v st)) = fst (m st)
    ∧ (snd (m (set_experiment_type v st)) = snd (m st)
       ∨ (snd (m (set_experiment_type v st)) = set_experiment_type v (snd (m st))
          ∧ self_experiment_type (snd (m st)) = self_experiment_type st)).

(** The script from the construction of the object to its assertion
    ([stats = SmartCampusExperimentStatistics(args); stats.parse_all();
    assert isinstance(stats.stats, MininetSeismicStatistics)]), given the
    parsed arguments; the prints after it call into the statistics object. *)
Definition main_until_assert (fs : filesystem) (dirs : option (list string))
    (files : list string) : outcome unit * state :=
  (parse_all fs dirs files ;;
   let! st := get_state in
   match self_stats st with
   | Some _ => ret tt
   | None => raise AssertionError
   end) init.

(** A file that [json.load] refuses. *)
Definition not_json (fs : filesystem) (f : string) : Prop :=
  ∃ err, content fs f = Some (NotJSON err).

(** What [json.load] makes of a document in the store [h]: an object whose
    [params] is the dict [dp] at [lp] and which has a [results]. *)
Definition decoded_document (doc : json) (h : heap) (h1 : heap) (lp : loc) (dp : dict)
  : Prop :=
  ∃ ld dd rv,
    json_decode doc h = (PDict ld, h1)
    ∧ h1 !! ld = Some dd
    ∧ dd !! "params" = Some (PDict lp)
    ∧ dd !! "results" = Some rv
    ∧ h1 !! lp = Some dp.

(** The store after decoding the legacy document, and its [params] dict. *)
Definition legacy_store : heap := snd (json_decode legacy_doc ∅).
Definition legacy_params : dict := default ∅ (legacy_store !! 1%positive).
(** ** Checks of the string, path and float functions *)

Example float_quarter :
  PyFloat.of_string "0.25" = Some (S754_finite false 4503599627370496 (-54)).
Proof. reflexivity. Qed.

Example float_not_numeric : PyFloat.of_string "high" = None.
Proof. reflexivity. Qed.

Example float_exponent :
  PyFloat.of_string " 25e-2 " = PyFloat.of_string "0.25".
Proof. reflexivity. Qed.

Example dirname_nested : OsPath.dirname "out/exp1/results.json" = "out/exp1".
Proof. reflexivity. Qed.

Example dirname_bare : OsPath.dirname "results.json" = "".
Proof. reflexivity. Qed.

Example dirname_root : OsPath.dirname "/results.json" = "/".
Proof. reflexivity. Qed.

Example join_relative : OsPath.join "out/exp1" "run0" = "out/exp1/run0".
Proof. reflexivity. Qed.

Example join_empty : OsPath.join "" "run0" = "run0".
Proof. reflexivity. Qed.

Example split_model : PyStr.split PyStr.slash "uniform/0.25" = ["uniform"; "0.25"].
Proof. reflexivity. Qed.

(** ** Stepping through the monad *)

Lemma frame_refl st : frame st st.
Proof. by repeat split. Qed.

Lemma frame_trans st1 st2 st3 : frame st1 st2 → frame st2 st3 → frame st1 st3.
Proof. intros (?&?&?) (?&?&?). repeat split; congruence. Qed.

Lemma frame_upd l d st : frame st (upd l d st).
Proof. by repeat split. Qed.

Lemma frame_upd_r l d st st1 : frame st st1 → frame st (upd l d st1).
Proof. intros H. eapply frame_trans; [exact H|apply frame_upd]. Qed.

Lemma frame_add_log r st : frame st (add_log r st).
Proof. by repeat split. Qed.

Lemma st_heap_upd l d st : st_heap (upd l d st) = <[l:=d]> (st_heap st).
Proof. reflexivity. Qed.

Lemma st_heap_add_log r st : st_heap (add_log r st) = st_heap st.
Proof. reflexivity. Qed.

Lemma lookup_upd l d st : st_heap (upd l d st) !! l = Some d.
Proof. rewrite st_heap_upd. apply lookup_insert_eq. Qed.

Lemma bind_ret {A B} (a : A) (k : A → M B) st : bind (ret a) k st = k a st.
Proof. reflexivity. Qed.

Lemma bind_raise {A B} e (k : A → M B) st : bind (raise e) k st = (Raise e, st).
Proof. reflexivity. Qed.

Lemma bind_assoc {A B C} (m : M A) (k : A → M B) (k' : B → M C) st :
  bind (bind m k) k' st = bind m (fun a => bind (k a) k') st.
Proof. unfold bind. destruct (m st) as [[a|e] st1]; reflexivity. Qed.

Lemma bind_get_state {B} (k : state → M B) st : bind get_state k st = k st st.
Proof. reflexivity. Qed.

Lemma bind_log {B} lv fmt args (k : unit → M B) st :
  bind (log lv fmt args) k st = k tt (add_log (Log lv fmt args) st).
Proof. reflexivity. Qed.

Section DictSteps.
Context {B : Type} (l : loc) (d : dict) (st : state) (k : string).
Hypothesis Hl : st_heap st !! l = Some d.

Lemma bind_load (K : dict → M B) : bind (load l) K st = K d st.
Proof. unfold bind, load. by rewrite Hl. Qed.

Lemma bind_dict_pop (K : pyval → M B) :
  bind (dict_pop l k) K st =
  match d !! k with
  | Some v => K v (upd l (delete k d) st)
  | None => (Raise (KeyError (PStr k)), st)
  end.
Proof. unfold dict_pop. rewrite bind_assoc, bind_load. by destruct (d !! k). Qed.

Lemma bind_dict_setitem v (K : unit → M B) :
  bind (dict_setitem l k v) K st = K tt (upd l (<[k:=v]> d) st).
Proof. unfold dict_setitem. by rewrite bind_assoc, bind_load. Qed.

Lemma bind_dict_getitem (K : pyval → M B) :
  bind (dict_getitem l k) K st =
  match d !! k with
  | Some v => K v st
  | None => (Raise (KeyError (PStr k)), st)
  end.
Proof. unfold dict_getitem. rewrite bind_assoc, bind_load. by destruct (d !! k). Qed.

Lemma bind_dict_get dflt (K : pyval → M B) :
  bind (dict_get l k dflt) K st = K (default dflt (d !! k)) st.
Proof. unfold dict_get. rewrite bind_assoc, bind_load. by destruct (d !! k). Qed.

Lemma bind_dict_delitem (K : unit → M B) :
  bind (dict_delitem l k) K st =
  match d !! k with
  | Some _ => K tt (upd l (delete k d) st)
  | None => (Raise (KeyError (PStr k)), st)
  end.
Proof. unfold dict_delitem. rewrite bind_assoc, bind_load. by destruct (d !! k). Qed.

Lemma bind_dict_items (K : list (string * pyval) → M B) :
  bind (dict_items l) K st = K (map_to_list d) st.
Proof. unfold dict_items. by rewrite bind_assoc, bind_load. Qed.

End DictSteps.


Lemma lookup_drop_nulls d k : drop_nulls d !! k = d !! k ≫= keep_value.
Proof. apply lookup_omap. Qed.

Lemma for_each_clear_null l kvs : ∀ st d,
  st_heap st !! l = Some d →
  NoDup kvs.*1 →
  (∀ k v, (k, v) ∈ kvs → d !! k = Some v) →
  ∃ st' d',
    for_each (clear_null l) kvs st = (Return tt, st')
    ∧ st_heap st' = <[l:=d']> (st_heap st)
    ∧ frame st st'
    ∧ ∀ k, d' !! k = v ← d !! k; if bool_decide (k ∈ kvs.*1) then keep_value v else Some v.
Proof.
  induction kvs as [|[k0 v0] kvs IH]; intros st d Hl Hnd Hin.
  - exists st, d. split_and!; [done| by rewrite insert_id | apply frame_refl |].
    intros k. by destruct (d !! k).
  - apply NoDup_cons in Hnd as [Hk0 Hnd].
    assert (Hd0 : d !! k0 = Some v0) by (apply Hin; left).
    cbn [for_each]. unfold clear_null at 1. cbn [fst snd].
    destruct (is_None v0) eqn:Hv0.
    + rewrite bind_assoc, bind_log.
      rewrite (bind_dict_delitem l d) by done. rewrite Hd0.
      destruct (IH (upd l (delete k0 d) (add_log (Log DEBUG "deleting null parameter: %s" [PStr k0]) st))
                  (delete k0 d)) as (st' & d' & Hrun & Hh & Hfr & Hlk).
      { apply lookup_upd. }
      { done. }
      { intros k v Hkv. rewrite lookup_delete_ne.
        - apply Hin. by right.
        - intros ->. apply Hk0. apply list_elem_of_fmap. by exists (k, v). }
      exists st', d'. split_and!; [done| | |].
      * rewrite Hh, st_heap_upd, st_heap_add_log. apply insert_insert_eq.
      * eapply frame_trans; [|exact Hfr]. eapply frame_trans; [apply frame_add_log|apply frame_upd].
      * intros k. rewrite Hlk. destruct (decide (k = k0)) as [->|Hne].
        -- rewrite lookup_delete_eq, Hd0. cbn. rewrite bool_decide_eq_true_2 by left.
           unfold keep_value. by rewrite Hv0.
        -- rewrite lookup_delete_ne by done. destruct (d !! k); [|done]. cbn.
           destruct (decide (k ∈ kvs.*1)).
           ++ rewrite !bool_decide_eq_true_2; [done| by right | done].
           ++ rewrite !bool_decide_eq_false_2; [done| | done].
              intros [?|?]%elem_of_cons; done.
    + rewrite bind_ret.
      destruct (IH st d) as (st' & d' & Hrun & Hh & Hfr & Hlk); [done|done| |].
      { intros k v Hkv. apply Hin. by right. }
      exists st', d'. split_and!; [done|done|done|].
      intros k. rewrite Hlk. destruct (decide (k = k0)) as [->|Hne].
      * rewrite Hd0. cbn. rewrite bool_decide_eq_false_2 by done.
        rewrite bool_decide_eq_true_2 by left. unfold keep_value. by rewrite Hv0.
      * destruct (d !! k); [|done]. cbn.
        destruct (decide (k ∈ kvs.*1)).
        -- rewrite !bool_decide_eq_true_2; [done| by right | done].
        -- rewrite !bool_decide_eq_false_2; [done| | done].
           intros [?|?]%elem_of_cons; done.
Qed.

(** The null-clearing loop over the items of the dict leaves exactly its
    non-null entries. *)

Lemma clear_nulls_run l d st :
  st_heap st !! l = Some d →
  ∃ st', for_each (clear_null l) (map_to_list d) st = (Return tt, st')
         ∧ st_heap st' = <[l:=drop_nulls d]> (st_heap st)
         ∧ frame st st'.
Proof.
  intros Hl.
  destruct (for_each_clear_null l (map_to_list d) st d) as (st' & d' & Hrun & Hh & Hfr & Hlk).
  - done.
  - apply NoDup_fst_map_to_list.
  - intros k v. apply elem_of_map_to_list.
  - exists st'. split_and!; [done| |done].
    rewrite Hh. f_equal. apply map_eq. intros k.
    rewrite Hlk, lookup_drop_nulls. destruct (d !! k) as [v|] eqn:Hk; [|done]. cbn.
    rewrite bool_decide_eq_true_2; [done|].
    apply list_elem_of_fmap. exists (k, v). split; [done|]. by apply elem_of_map_to_list.
Qed.

Lemma bind_effective {B} et (K : pyval → M B) st :
  bind (if is_None et
        then (let! st := get_state in ret (self_experiment_type st))
        else ret et) K st
  = K (effective_type et st) st.
Proof. unfold effective_type. by destruct (is_None et). Qed.

Lemma bind_py_split {B} v (K : list string → M B) st :
  bind (py_split v) K st =
  match v with
  | PStr s => K (PyStr.split PyStr.slash s) st
  | _ => (Raise AttributeError, st)
  end.
Proof. by destruct v. Qed.

Lemma bind_of_index {A B} (o : option A) (K : A → M B) st :
  bind (of_index o) K st =
  match o with Some a => K a st | None => (Raise IndexError, st) end.
Proof. by destruct o. Qed.

Lemma bind_py_float {B} s (K : PyFloat.float → M B) st :
  bind (py_float s) K st =
  match PyFloat.of_string s with
  | Some f => K f st
  | None => (Raise ValueError, st)
  end.
Proof. unfold py_float. by destruct (PyFloat.of_string s). Qed.

Lemma upd_id l d st : st_heap st !! l = Some d → upd l d st = st.
Proof. intros Hl. unfold upd. rewrite insert_id by done. by destruct st. Qed.

Lemma topo_step_Return l d st tv st' :
  st_heap st !! l = Some d →
  d !! "topo" = Some tv →
  topo_step l tv st = (Return tt, st') →
  ∃ t, topo_name tv = Some t ∧ st' = upd l (<["topo" := PStr t]> d) st.
Proof.
  intros Hl Ht H. unfold topo_step in H.
  destruct tv as [| | | |t|vs|l2|]; cbn [is_basestring] in H;
    try (rewrite (bind_dict_getitem l d) in H by done; rewrite Ht in H; cbv beta in H;
         cbn [py_getitem] in H; rewrite ?bind_raise in H; try discriminate).
  - exists t. split; [done|]. inversion H as [Hst]. rewrite <- Hst.
    rewrite insert_id by done. symmetry. by apply upd_id.
  - rewrite bind_of_index in H. cbn [topo_name].
    destruct (seq_index vs 1) as [name|]; [|discriminate].
    rewrite (bind_dict_setitem l d) in H by done.
    rewrite (bind_dict_getitem l (<["topo":=name]> d)) in H by apply lookup_upd.
    rewrite lookup_insert_eq in H.
    destruct name; cbn [is_basestring] in H; try discriminate.
    inversion H. eauto.
  - unfold bind, load, raise in H. destruct (st_heap st !! l2); discriminate.
Qed.

(** What a successful normalisation did: the raw dict [d] at [l] held the
    keys the renames pop, and the cell now holds the normal form. *)

Lemma extract_parameters_Return l et st v st' d :
  st_heap st !! l = Some d →
  extract_parameters l et st = (Return v, st') →
  v = PDict l
  ∧ eq_str (effective_type et st) "mininet" = true
  ∧ frame st st'
  ∧ ∃ hv ev s c f tv t sp d5 d',
      d !! "heuristic" = Some hv
      ∧ d !! "experiment_type" = Some ev
      ∧ d !! "failure_model" = Some (PStr s)
      ∧ seq_index (PyStr.split PyStr.slash s) 1 = Some c
      ∧ PyFloat.of_string c = Some f
      ∧ d !! "topo" = Some tv
      ∧ topo_name tv = Some t
      ∧ d5 = drop_nulls (renamed d hv ev f t)
      ∧ d5 !! "tree_choosing_heuristic" = Some sp
      ∧ ((n_traffic_truthy l st (with_select_policy d5 sp) = true
          ∧ d' = with_select_policy d5 sp)
         ∨ (n_traffic_truthy l st (with_select_policy d5 sp) = false
            ∧ is_Some (d5 !! "n_traffic_generators")
            ∧ is_Some (d5 !! "traffic_generator_bandwidth")
            ∧ d' = without_traffic (with_select_policy d5 sp)))
      ∧ st_heap st' = <[l:=d']> (st_heap st).
Proof.
  intros Hl H. unfold extract_parameters in H.
  rewrite bind_effective in H.
  rewrite (bind_dict_pop l d) in H by done.
  destruct (d !! "heuristic") as [hv|] eqn:Hh; [|discriminate].
  set (d1 := delete "heuristic" d) in *.
  rewrite (bind_dict_setitem l d1) in H by apply lookup_upd.
  set (d1' := <["const_alg":=hv]> d1) in *.
  rewrite (bind_dict_pop l d1') in H by apply lookup_upd.
  assert (He : d1' !! "experiment_type" = d !! "experiment_type")
    by (subst d1' d1; by simplify_map_eq).
  destruct (d1' !! "experiment_type") as [ev|] eqn:He'; [|discriminate].
  set (d2 := delete "experiment_type" d1') in *.
  rewrite (bind_dict_setitem l d2) in H by apply lookup_upd.
  set (d2' := <["exp_type":=ev]> d2) in *.
  rewrite (bind_dict_pop l d2') in H by apply lookup_upd.
  assert (Hf : d2' !! "failure_model" = d !! "failure_model")
    by (subst d2' d2 d1' d1; by simplify_map_eq).
  destruct (d2' !! "failure_model") as [fm|] eqn:Hf'; [|discriminate].
  set (d3 := delete "failure_model" d2') in *.
  rewrite bind_py_split in H.
  destruct fm as [| | | |s| | |]; try discriminate.
  rewrite bind_of_index in H.
  destruct (seq_index (PyStr.split PyStr.slash s) 1) as [c|] eqn:Hc; [|discriminate].
  rewrite bind_py_float in H.
  destruct (PyFloat.of_string c) as [f|] eqn:Hfl; [|discriminate].
  rewrite (bind_dict_setitem l d3) in H by apply lookup_upd.
  set (d3' := <["fprob":=PFloat f]> d3) in *.
  rewrite (bind_dict_getitem l d3') in H by apply lookup_upd.
  assert (Ht : d3' !! "topo" = d !! "topo")
    by (subst d3' d3 d2' d2 d1' d1; by simplify_map_eq).
  destruct (d3' !! "topo") as [tv|] eqn:Ht'; [|discriminate].
  change (if is_basestring tv then ret tt else _) with (topo_step l tv) in H.
  unfold bind at 1 in H.
  match type of H with context [topo_step l tv ?s] => set (st3 := s) in * end.
  destruct (topo_step l tv st3) as [[[]|e] st4] eqn:Htopo; [|discriminate].
  apply (topo_step_Return l d3') in Htopo as (t & Htn & ->); [|apply lookup_upd|done].
  set (d4 := <["topo":=PStr t]> d3') in *.
  rewrite (bind_dict_items l d4) in H by apply lookup_upd.
  unfold bind at 1 in H.
  destruct (clear_nulls_run l d4 (upd l d4 st3)) as (st5 & Hrun & Hh5 & Hfr5); [apply lookup_upd|].
  rewrite Hrun in H.
  assert (Hl5 : st_heap st5 !! l = Some (drop_nulls d4)) by (rewrite Hh5; apply lookup_insert_eq).
  destruct (eq_str (effective_type et st) "mininet") eqn:Het.
  2:{ destruct (eq_str (effective_type et st) "networkx"); discriminate. }
  rewrite (bind_dict_pop l (drop_nulls d4)) in H by done.
  destruct (drop_nulls d4 !! "tree_choosing_heuristic") as [sp|] eqn:Hsp; [|discriminate].
  set (d5 := drop_nulls d4) in *. set (d5' := delete "tree_choosing_heuristic" d5) in *.
  rewrite (bind_dict_setitem l d5') in H by apply lookup_upd.
  set (d6 := <["select_policy":=sp]> d5') in *.
  rewrite (bind_dict_get l d6) in H by apply lookup_upd.
  rewrite bind_get_state in H.
  assert (Hfr : frame st st5).
  { eapply frame_trans; [|exact Hfr5]. subst st3. by repeat split. }
  assert (Hheap : ∀ dd, <[l:=dd]> (st_heap st5) = <[l:=dd]> (st_heap st)).
  { intros dd. rewrite Hh5. subst st3. rewrite !st_heap_upd. by rewrite !insert_insert_eq. }
  assert (Hn : ∀ k, k ≠ "select_policy" → k ≠ "tree_choosing_heuristic" → d6 !! k = d5 !! k).
  { intros k ? ?. subst d6 d5'. by simplify_map_eq. }
  assert (Htr : truthy (st_heap (upd l d6 (upd l d5' st5))) (default PNone (d6 !! "n_traffic_generators"))
                = n_traffic_truthy l st d6).
  { unfold n_traffic_truthy. by rewrite !st_heap_upd, insert_insert_eq, Hheap. }
  rewrite Htr in H.
  destruct (n_traffic_truthy l st d6) eqn:Hntt; cbn [negb] in H.
  - cbv [bind ret] in H. inversion H; subst v st'.
    split_and!; [done|done| |].
    { by do 2 apply frame_upd_r. }
    exists hv, ev, s, c, f, tv, t, sp, d5, d6.
    split_and!; try done; try congruence.
    + by left.
    + rewrite !st_heap_upd, insert_insert_eq. apply Hheap.
  - rewrite bind_assoc in H.
    rewrite (bind_dict_delitem l d6) in H by apply lookup_upd.
    destruct (d6 !! "n_traffic_generators") as [n|] eqn:Hntg; [|discriminate].
    rewrite (bind_dict_delitem l (delete "n_traffic_generators" d6)) in H by apply lookup_upd.
    destruct (delete "n_traffic_generators" d6 !! "traffic_generator_bandwidth") as [b|] eqn:Hb;
      [|discriminate].
    cbv [bind ret] in H. inversion H; subst v st'.
    split_and!; [done|done| |].
    { by do 4 apply frame_upd_r. }
    exists hv, ev, s, c, f, tv, t, sp, d5, (without_traffic d6).
    split_and!; try done; try congruence.
    + right. split_and!; [done| | |done].
      * rewrite <- Hn by done. by rewrite Hntg.
      * rewrite <- Hn by done. rewrite lookup_delete_ne in Hb by done. by rewrite Hb.
    + rewrite !st_heap_upd, !insert_insert_eq. apply Hheap.
Qed.

(** ** Parameter normalisation: properties of [extract_parameters] *)

Lemma at_cell_lookup d : st_heap (at_cell d) !! 1%positive = Some d.
Proof. apply lookup_singleton_eq. Qed.

(** C1. On the spec's worked example under experiment type mininet the code
    does not return: the raw mapping has no [traffic_generator_bandwidth],
    so the second [del] of the mininet branch raises KeyError.  At that
    point the dict already holds the mapping the spec expects. *)
Theorem C1_worked_example_raises :
  ∃ st',
    extract_parameters 1%positive (PStr "mininet") (at_cell raw_example)
    = (Raise (KeyError (PStr "traffic_generator_bandwidth")), st')
    ∧ st_heap st' !! 1%positive = Some normalized_example.
Proof. eexists. split; vm_compute; reflexivity. Qed.

(** With both traffic keys present the same input is normalised as the spec
    describes. *)
Lemma extract_parameters_both_traffic :
  ∃ st',
    extract_parameters 1%positive (PStr "mininet") (at_cell raw_both_traffic)
    = (Return (PDict 1%positive), st')
    ∧ st_heap st' !! 1%positive = Some normalized_example.
Proof. eexists. split; vm_compute; reflexivity. Qed.

(** C3. A raw mapping without [n_traffic_generators], normalised under
    mininet, raises KeyError at [del exp_params["n_traffic_generators"]]. *)
Theorem C3_absent_generators_raises :
  raw_no_generators !! "n_traffic_generators" = None
  ∧ fst (extract_parameters 1%positive (PStr "mininet") (at_cell raw_no_generators))
    = Raise (KeyError (PStr "n_traffic_generators")).
Proof. split; vm_compute; reflexivity. Qed.

(** Whenever [n_traffic_generators] is absent or null in the raw mapping,
    normalisation under mininet does not return. *)
Lemma absent_generators_never_return l et st d v st' :
  st_heap st !! l = Some d →
  d !! "n_traffic_generators" = None ∨ d !! "n_traffic_generators" = Some PNone →
  extract_parameters l et st ≠ (Return v, st').
Proof.
  intros Hl Hn H.
  apply (extract_parameters_Return l et st v st' d Hl) in H
    as (_ & _ & _ & hv & ev & s & c & f & tv & t & sp & d5 & d' & _ & _ & _ & _ & _ & _ & _
        & -> & _ & Hcase & _).
  assert (Hd5 : drop_nulls (renamed d hv ev f t) !! "n_traffic_generators" = None).
  { rewrite lookup_drop_nulls. unfold renamed. simplify_map_eq.
    destruct Hn as [->| ->]; done. }
  destruct Hcase as [[Htr _]|(_ & [n Hn'] & _)].
  - unfold n_traffic_truthy, with_select_policy in Htr. simplify_map_eq.
  - congruence.
Qed.

(** When normalisation under mininet returns and the count is falsy,
    neither traffic key is left. *)
Lemma falsy_generators_dropped l et st d v st' d' :
  st_heap st !! l = Some d →
  extract_parameters l et st = (Return v, st') →
  st_heap st' !! l = Some d' →
  truthy (st_heap st') (default PNone (d' !! "n_traffic_generators")) = false →
  d' !! "n_traffic_generators" = None ∧ d' !! "traffic_generator_bandwidth" = None.
Proof.
  intros Hl H Hd' Hfalsy.
  apply (extract_parameters_Return l et st v st' d Hl) in H
    as (_ & _ & _ & hv & ev & s & c & f & tv & t & sp & d5 & d'' & _ & _ & _ & _ & _ & _ & _
        & Hd5 & _ & Hcase & Hh).
  rewrite Hh, lookup_insert_eq in Hd'. injection Hd' as <-.
  destruct Hcase as [[Htr ->]|(_ & _ & _ & ->)].
  - unfold n_traffic_truthy in Htr. rewrite Hh in Hfalsy. congruence.
  - unfold without_traffic. by simplify_map_eq.
Qed.

(** C7 (amended). After a successful normalisation no key of the mapping
    has a null value, and every key whose raw value was null is absent,
    unless it is one of the names the normaliser itself writes. *)
Theorem C7_no_null_values l et st d v st' d' :
  st_heap st !! l = Some d →
  extract_parameters l et st = (Return v, st') →
  st_heap st' !! l = Some d' →
  (∀ k, d' !! k ≠ Some PNone)
  ∧ (∀ k, d !! k = Some PNone → derived_key k = false → d' !! k = None).
Proof.
  intros Hl H Hd'.
  apply (extract_parameters_Return l et st v st' d Hl) in H
    as (_ & _ & _ & hv & ev & s & c & f & tv & t & sp & d5 & d'' & _ & _ & _ & _ & _ & Htv & Htn
        & Hd5 & Hsp & Hcase & Hh).
  rewrite Hh, lookup_insert_eq in Hd'. injection Hd' as <-.
  assert (Hnn : ∀ k, d5 !! k ≠ Some PNone).
  { intros k. rewrite Hd5, lookup_drop_nulls.
    destruct (renamed d hv ev f t !! k) as [[]|]; done. }
  assert (H6 : ∀ k, with_select_policy d5 sp !! k ≠ Some PNone).
  { intros k. unfold with_select_policy.
    destruct (decide (k = "select_policy")) as [->|].
    - rewrite lookup_insert_eq. intros [= ->]. by apply (Hnn "tree_choosing_heuristic").
    - rewrite lookup_insert_ne by done.
      destruct (decide (k = "tree_choosing_heuristic")) as [->|].
      + by rewrite lookup_delete_eq.
      + rewrite lookup_delete_ne by done. apply Hnn. }
  assert (H6' : ∀ k, d !! k = Some PNone → derived_key k = false →
                     with_select_policy d5 sp !! k = None).
  { intros k Hk Hder. unfold derived_key in Hder.
    apply orb_false_iff in Hder as [Hder Hk4]. apply orb_false_iff in Hder as [Hder Hk3].
    apply orb_false_iff in Hder as [Hk1 Hk2].
    apply String.eqb_neq in Hk1, Hk2, Hk3, Hk4.
    assert (k ≠ "topo").
    { intros ->. rewrite Hk in Htv. injection Htv as <-. discriminate. }
    unfold with_select_policy. rewrite lookup_insert_ne by done.
    destruct (decide (k = "tree_choosing_heuristic")) as [->|]; [by rewrite lookup_delete_eq|].
    rewrite lookup_delete_ne by done. rewrite Hd5, lookup_drop_nulls. unfold renamed.
    rewrite lookup_insert_ne, lookup_insert_ne by done.
    destruct (decide (k = "failure_model")) as [->|]; [by rewrite lookup_delete_eq|].
    rewrite lookup_delete_ne, lookup_insert_ne by done.
    destruct (decide (k = "experiment_type")) as [->|]; [by rewrite lookup_delete_eq|].
    rewrite lookup_delete_ne, lookup_insert_ne by done.
    destruct (decide (k = "heuristic")) as [->|]; [by rewrite lookup_delete_eq|].
    rewrite lookup_delete_ne by done. by rewrite Hk. }
  destruct Hcase as [[_ ->]|(_ & _ & _ & ->)]; [done|].
  split.
  - intros k. unfold without_traffic.
    destruct (decide (k = "traffic_generator_bandwidth")) as [->|];
      [by rewrite lookup_delete_eq|rewrite lookup_delete_ne by done].
    destruct (decide (k = "n_traffic_generators")) as [->|];
      [by rewrite lookup_delete_eq|rewrite lookup_delete_ne by done].
    apply H6.
  - intros k Hk Hder. unfold without_traffic.
    destruct (decide (k = "traffic_generator_bandwidth")) as [->|];
      [by rewrite lookup_delete_eq|rewrite lookup_delete_ne by done].
    destruct (decide (k = "n_traffic_generators")) as [->|];
      [by rewrite lookup_delete_eq|rewrite lookup_delete_ne by done].
    by apply H6'.
Qed.

(** A run on a mapping with a null [fprob] entry and an unset seed. *)
Lemma null_fprob_run :
  ∃ st' d',
    extract_parameters 1%positive (PStr "mininet") (at_cell raw_null_fprob)
    = (Return (PDict 1%positive), st')
    ∧ st_heap st' !! 1%positive = Some d'
    ∧ d' !! "fprob" = Some (PFloat quarter).
Proof. eexists _, _. split_and!; vm_compute; reflexivity. Qed.

(** C7, as stated, fails: a null raw entry under a name the normaliser
    writes comes back with the derived value. *)
Lemma C7_null_fprob_overwritten :
  raw_null_fprob !! "fprob" = Some PNone
  ∧ ∃ st' d',
      extract_parameters 1%positive (PStr "mininet") (at_cell raw_null_fprob)
      = (Return (PDict 1%positive), st')
      ∧ st_heap st' !! 1%positive = Some d'
      ∧ d' !! "fprob" = Some (PFloat quarter).
Proof. split; [by vm_compute|apply null_fprob_run]. Qed.

(** C7 at work: the unset seed is dropped and nothing null is left. *)
Lemma C7_witness :
  ∃ st' d',
    st_heap st' !! 1%positive = Some d'
    ∧ ((∀ k, d' !! k ≠ Some PNone)
       ∧ (∀ k, raw_null_fprob !! k = Some PNone → derived_key k = false → d' !! k = None))
    ∧ raw_null_fprob !! "random_seed" = Some PNone
    ∧ d' !! "random_seed" = None.
Proof.
  destruct null_fprob_run as (st' & d' & Hrun & Hd' & _).
  exists st', d'. split; [exact Hd'|].
  pose proof (at_cell_lookup raw_null_fprob) as Hl.
  pose proof (C7_no_null_values _ _ _ _ _ _ _ Hl Hrun Hd') as Hc.
  split; [exact Hc|]. split; [vm_compute; reflexivity|].
  apply (proj2 Hc); vm_compute; reflexivity.
Defined.

(** A string without the separator splits into itself alone. *)
Lemma split_no_sep c s : PyStr.contains c s = false → PyStr.split c s = [s].
Proof.
  induction s as [|c' s IH]; [done|]. cbn [PyStr.contains PyStr.split].
  intros [Hc Hs]%orb_false_iff. rewrite Hc, (IH Hs). done.
Qed.

(** The statements of [extract_parameters] up to the [split], on a raw dict
    that has the two renamed keys and a string [failure_model]. *)
Lemma extract_parameters_fprob_steps l et st d hv ev s :
  st_heap st !! l = Some d →
  d !! "heuristic" = Some hv →
  d !! "experiment_type" = Some ev →
  d !! "failure_model" = Some (PStr s) →
  match seq_index (PyStr.split PyStr.slash s) 1 with
  | None => fst (extract_parameters l et st) = Raise IndexError
  | Some c =>
      match PyFloat.of_string c with
      | None => fst (extract_parameters l et st) = Raise ValueError
      | Some _ => True
      end
  end.
Proof.
  intros Hl Hh He Hf. unfold extract_parameters.
  rewrite bind_effective.
  rewrite (bind_dict_pop l d) by done. rewrite Hh.
  rewrite (bind_dict_setitem l (delete "heuristic" d)) by apply lookup_upd.
  rewrite (bind_dict_pop l (<["const_alg":=hv]> (delete "heuristic" d))) by apply lookup_upd.
  rewrite lookup_insert_ne, lookup_delete_ne, He by done.
  rewrite (bind_dict_setitem l (delete "experiment_type" (<["const_alg":=hv]> (delete "heuristic" d))))
    by apply lookup_upd.
  erewrite bind_dict_pop by apply lookup_upd.
  rewrite lookup_insert_ne, lookup_delete_ne, lookup_insert_ne, lookup_delete_ne, Hf by done.
  rewrite bind_py_split, bind_of_index.
  destruct (seq_index (PyStr.split PyStr.slash s) 1) as [c|]; [|done].
  rewrite bind_py_float. by destruct (PyFloat.of_string c).
Qed.

Lemma topo_step_run l d st tv t :
  st_heap st !! l = Some d →
  d !! "topo" = Some tv →
  topo_name tv = Some t →
  topo_step l tv st = (Return tt, upd l (<["topo":=PStr t]> d) st).
Proof.
  intros Hl Ht Hn. unfold topo_step.
  destruct tv as [| | | |t'|vs| |]; try discriminate Hn; cbn [is_basestring].
  - injection Hn as ->. rewrite insert_id by done. by rewrite upd_id.
  - cbn [topo_name] in Hn.
    rewrite (bind_dict_getitem l d) by done. rewrite Ht. cbn [py_getitem].
    rewrite bind_of_index.
    destruct (seq_index vs 1) as [[| | | |t'| | |]|]; try discriminate Hn.
    injection Hn as ->.
    rewrite (bind_dict_setitem l d) by done.
    rewrite (bind_dict_getitem l (<["topo":=PStr t]> d)) by apply lookup_upd.
    by rewrite lookup_insert_eq.
Qed.

(** Under any experiment type but mininet, a raw dict that passes the common
    statements is renamed and cleared of nulls, and then the call fails:
    NotImplementedError for networkx, [exit(1)] after an error record for
    anything else.  No statistics object is touched. *)
Lemma extract_parameters_unsupported l et st d hv ev s c f tv t :
  st_heap st !! l = Some d →
  d !! "heuristic" = Some hv →
  d !! "experiment_type" = Some ev →
  d !! "failure_model" = Some (PStr s) →
  seq_index (PyStr.split PyStr.slash s) 1 = Some c →
  PyFloat.of_string c = Some f →
  d !! "topo" = Some tv →
  topo_name tv = Some t →
  eq_str (effective_type et st) "mininet" = false →
  ∃ st',
    extract_parameters l et st
    = (Raise (if eq_str (effective_type et st) "networkx"
              then NotImplementedError "netx parsing not supported yet!"
              else SystemExit 1), st')
    ∧ st_heap st' = <[l:=drop_nulls (renamed d hv ev f t)]> (st_heap st)
    ∧ frame st st'.
Proof.
  intros Hl Hh He Hf Hc Hfl Ht Hn Het. unfold extract_parameters.
  rewrite bind_effective.
  rewrite (bind_dict_pop l d) by done. rewrite Hh.
  set (d1 := <["const_alg":=hv]> (delete "heuristic" d)).
  rewrite (bind_dict_setitem l (delete "heuristic" d)) by apply lookup_upd. fold d1.
  rewrite (bind_dict_pop l d1) by apply lookup_upd.
  assert (He1 : d1 !! "experiment_type" = Some ev) by (subst d1; by simplify_map_eq).
  rewrite He1.
  set (d2 := <["exp_type":=ev]> (delete "experiment_type" d1)).
  rewrite (bind_dict_setitem l (delete "experiment_type" d1)) by apply lookup_upd. fold d2.
  rewrite (bind_dict_pop l d2) by apply lookup_upd.
  assert (Hf2 : d2 !! "failure_model" = Some (PStr s)) by (subst d2 d1; by simplify_map_eq).
  rewrite Hf2, bind_py_split, bind_of_index, Hc, bind_py_float, Hfl.
  set (d3 := <["fprob":=PFloat f]> (delete "failure_model" d2)).
  rewrite (bind_dict_setitem l (delete "failure_model" d2)) by apply lookup_upd. fold d3.
  rewrite (bind_dict_getitem l d3) by apply lookup_upd.
  assert (Ht3 : d3 !! "topo" = Some tv) by (subst d3 d2 d1; by simplify_map_eq).
  rewrite Ht3.
  change (if is_basestring tv then ret tt else _) with (topo_step l tv).
  unfold bind at 1.
  match goal with |- context [topo_step l tv ?s0] => set (st3 := s0) end.
  rewrite (topo_step_run l d3 st3 tv t) by (try apply lookup_upd; done).
  rewrite (bind_dict_items l (<["topo":=PStr t]> d3)) by apply lookup_upd.
  destruct (clear_nulls_run l (<["topo":=PStr t]> d3) (upd l (<["topo":=PStr t]> d3) st3))
    as (st5 & Hrun & Hh5 & Hfr5); [apply lookup_upd|].
  unfold bind at 1. rewrite Hrun, Het.
  assert (Hheap : st_heap st5 = <[l:=drop_nulls (renamed d hv ev f t)]> (st_heap st)).
  { rewrite Hh5. subst st3. rewrite !st_heap_upd, !insert_insert_eq. done. }
  assert (Hfr : frame st st5).
  { eapply frame_trans; [|exact Hfr5]. subst st3. by repeat split. }
  destruct (eq_str (effective_type et st) "networkx").
  - exists st5. by split_and!.
  - eexists. split_and!; [reflexivity|exact Hheap|].
    eapply frame_trans; [exact Hfr|apply frame_add_log].
Qed.

(** C8. [fprob] is the float read from the second [/]-separated component
    of [failure_model], and the [failure_model] key is gone from the result;
    a value without [/] raises IndexError and a second component that is not
    numeric raises ValueError, neither being caught. *)
Theorem C8_fprob_from_failure_model l et st d s :
  st_heap st !! l = Some d →
  is_Some (d !! "heuristic") →
  is_Some (d !! "experiment_type") →
  d !! "failure_model" = Some (PStr s) →
  (PyStr.contains PyStr.slash s = false →
   fst (extract_parameters l et st) = Raise IndexError)
  ∧ (∀ c, seq_index (PyStr.split PyStr.slash s) 1 = Some c →
          PyFloat.of_string c = None →
          fst (extract_parameters l et st) = Raise ValueError)
  ∧ (∀ v st', extract_parameters l et st = (Return v, st') →
       ∃ c f d',
         seq_index (PyStr.split PyStr.slash s) 1 = Some c
         ∧ PyFloat.of_string c = Some f
         ∧ st_heap st' !! l = Some d'
         ∧ d' !! "fprob" = Some (PFloat f)
         ∧ d' !! "failure_model" = None).
Proof.
  intros Hl [hv Hh] [ev He] Hf.
  pose proof (extract_parameters_fprob_steps l et st d hv ev s Hl Hh He Hf) as Hsteps.
  split_and!.
  - intros Hno. by rewrite (split_no_sep _ _ Hno) in Hsteps.
  - intros c Hc Hnum. by rewrite Hc, Hnum in Hsteps.
  - intros v st' H.
    apply (extract_parameters_Return l et st v st' d Hl) in H
      as (_ & _ & _ & hv' & ev' & s' & c & f & tv & t & sp & d5 & d' & _ & _ & Hf' & Hc & Hfl & _
          & _ & Hd5 & Hsp & Hcase & Hh').
    rewrite Hf in Hf'. injection Hf' as <-.
    exists c, f, d'. split_and!; [done|done|by rewrite Hh', lookup_insert_eq| |].
    + assert (H5 : d5 !! "fprob" = Some (PFloat f)).
      { rewrite Hd5, lookup_drop_nulls. unfold renamed. by simplify_map_eq. }
      destruct Hcase as [[_ ->]|(_ & _ & _ & ->)];
        unfold without_traffic, with_select_policy; by simplify_map_eq.
    + assert (H5 : d5 !! "failure_model" = None).
      { rewrite Hd5, lookup_drop_nulls. unfold renamed. by simplify_map_eq. }
      destruct Hcase as [[_ ->]|(_ & _ & _ & ->)];
        unfold without_traffic, with_select_policy; by simplify_map_eq.
Qed.

(** C10. A successful [extract_parameters] returns the very dict it was
    given, whose cell it has overwritten: the raw contents are gone, no
    other object of the store is touched, and whoever holds the dict as a
    member (as the decoded document does under [params]) finds the
    normalised contents there. *)
Theorem C10_normalises_in_place l et st d v st' :
  st_heap st !! l = Some d →
  extract_parameters l et st = (Return v, st') →
  v = PDict l
  ∧ ∃ d', st_heap st' = <[l:=d']> (st_heap st)
          ∧ d' ≠ d
          ∧ d' !! "heuristic" = None
          ∧ ∀ l2 d2 k, l2 ≠ l → st_heap st !! l2 = Some d2 → d2 !! k = Some (PDict l) →
              member_contents (st_heap st) l2 k = Some d
              ∧ member_contents (st_heap st') l2 k = Some d'.
Proof.
  intros Hl H.
  apply (extract_parameters_Return l et st v st' d Hl) in H
    as (-> & _ & _ & hv & ev & s & c & f & tv & t & sp & d5 & d' & Hh & _ & _ & _ & _ & _
        & _ & Hd5 & Hsp & Hcase & Hh').
  split; [done|]. exists d'.
  assert (H5 : d5 !! "heuristic" = None).
  { rewrite Hd5, lookup_drop_nulls. unfold renamed. by simplify_map_eq. }
  assert (Hd' : d' !! "heuristic" = None).
  { destruct Hcase as [[_ ->]|(_ & _ & _ & ->)];
      unfold without_traffic, with_select_policy; by simplify_map_eq. }
  split_and!; [done| |done|].
  - intros ->. congruence.
  - intros l2 d2 k Hne Hl2 Hk. unfold member_contents.
    rewrite Hh', lookup_insert_ne, Hl2 by done. cbn. rewrite Hk. cbn.
    by rewrite Hl, lookup_insert_eq.
Qed.

(** C8 at work on the mapping with both traffic keys. *)
Lemma C8_witness :
  ∃ st' d',
    extract_parameters 1%positive (PStr "mininet") (at_cell raw_both_traffic)
    = (Return (PDict 1%positive), st')
    ∧ st_heap st' !! 1%positive = Some d'
    ∧ d' !! "fprob" = Some (PFloat quarter)
    ∧ d' !! "failure_model" = None.
Proof.
  destruct extract_parameters_both_traffic as (st' & Hrun & Hd').
  pose proof (at_cell_lookup raw_both_traffic) as Hl.
  assert (Hh : is_Some (raw_both_traffic !! "heuristic"))
    by (exists (PStr "steiner"); vm_compute; reflexivity).
  assert (He : is_Some (raw_both_traffic !! "experiment_type"))
    by (exists (PStr "mininet"); vm_compute; reflexivity).
  assert (Hf : raw_both_traffic !! "failure_model" = Some (PStr "uniform/0.25"))
    by (vm_compute; reflexivity).
  destruct (C8_fprob_from_failure_model _ (PStr "mininet") _ _ _ Hl Hh He Hf) as (_ & _ & Hok).
  destruct (Hok _ _ Hrun) as (c & f & d' & Hc & Hfl & Hd'' & Hfp & Hfm).
  exists st', d'. split_and!; [done|done| |done].
  rewrite Hfp. vm_compute in Hc. injection Hc as <-. vm_compute in Hfl. by injection Hfl as <-.
Defined.

(** C10 at work on the mapping with both traffic keys. *)
Lemma C10_witness :
  ∃ st' d',
    extract_parameters 1%positive (PStr "mininet") (at_cell raw_both_traffic)
    = (Return (PDict 1%positive), st')
    ∧ st_heap st' = <[1%positive:=d']> (st_heap (at_cell raw_both_traffic))
    ∧ d' ≠ raw_both_traffic.
Proof.
  destruct extract_parameters_both_traffic as (st' & Hrun & _).
  pose proof (at_cell_lookup raw_both_traffic) as Hl.
  destruct (C10_normalises_in_place _ _ _ _ _ _ Hl Hrun) as (_ & d' & Hh & Hne & _).
  exists st', d'. exact (conj Hrun (conj Hh Hne)).
Defined.

(** ** Decoding *)

Lemma decode_members_keys dec kvs : ∀ d h d' h',
  decode_members dec kvs d h = (d', h') →
  ∀ k, d' !! k = None ↔ d !! k = None ∧ k ∉ kvs.*1.
Proof.
  induction kvs as [|[k0 j] kvs IH]; intros d h d' h' H k; cbn in H.
  - injection H as <- <-. split; [|by intros []]. intros ?. split; [done|]. apply not_elem_of_nil.
  - destruct (dec j h) as [v h1]. apply IH with (k := k) in H. rewrite H. cbn.
    rewrite not_elem_of_cons. destruct (decide (k = k0)) as [->|].
    + rewrite lookup_insert_eq. split; [by intros []|]. intros (_ & Hne & _). by destruct Hne.
    + rewrite lookup_insert_ne by done. split.
      * intros [? ?]. by repeat split.
      * intros (? & _ & ?). by split.
Qed.

(** [json.load] of an object gives a new dict whose keys are the members'
    names; nothing else of the state changes. *)
Lemma json_load_object members st :
  ∃ l d st1,
    json_load (JObj members) st = (Return (PDict l), st1)
    ∧ st_heap st1 !! l = Some d
    ∧ (∀ k, d !! k = None ↔ k ∉ members.*1)
    ∧ frame st st1
    ∧ st_log st1 = st_log st.
Proof.
  unfold json_load. cbn [json_decode].
  destruct (decode_members json_decode members ∅ (st_heap st)) as [d h1] eqn:Hd.
  unfold alloc. eexists _, d, _. split_and!; [done| | |done|done].
  - cbn. apply lookup_insert_eq.
  - intros k. rewrite (decode_members_keys _ _ _ _ _ _ Hd k), lookup_empty.
    split; [by intros []|by split].
Qed.

Lemma fst_bind_Raise {A B} (m : M A) (k : A → M B) st e :
  fst (m st) = Raise e → fst (bind m k st) = Raise e.
Proof. unfold bind. destruct (m st) as [[a|e'] st1]; cbn; congruence. Qed.

(** ** Per-file processing: properties of [parse_file] *)

(** C2 (amended). A file holding a JSON object without the key [params], or
    with it but without [results], is not skipped: [parse_file] raises
    KeyError for the missing key, nothing catches it, and the run over the
    remaining files is abandoned. *)
Theorem C2_missing_key_raises fs fname members st :
  content fs fname = Some (IsJSON (JObj members)) →
  "params" ∉ members.*1 ∨ "results" ∉ members.*1 →
  let missing := if bool_decide ("params" ∈ members.*1) then "results" else "params" in
  fst (parse_file fs fname st) = Raise (KeyError (PStr missing))
  ∧ ∀ rest, fst (parse_all fs None (fname :: rest) st) = Raise (KeyError (PStr missing)).
Proof.
  intros Hc Hmiss missing.
  assert (Hpf : fst (parse_file fs fname st) = Raise (KeyError (PStr missing))).
  { unfold parse_file. rewrite bind_log, Hc.
    destruct (json_load_object members (add_log (Log DEBUG "parsing file: %s" [PStr fname]) st))
      as (l & d & st1 & Hload & Hl & Hkeys & _ & _).
    unfold bind at 1. rewrite Hload. cbn [py_getitem].
    rewrite (bind_dict_getitem l d) by done.
    subst missing. case_bool_decide as Hp.
    - destruct (d !! "params") as [p|] eqn:Hdp; [|by apply Hkeys in Hdp].
      rewrite (bind_dict_getitem l d) by done.
      destruct Hmiss as [?|Hr]; [done|]. apply Hkeys in Hr. by rewrite Hr.
    - apply Hkeys in Hp. by rewrite Hp. }
  split; [done|]. intros rest. cbn [parse_all for_each].
  apply fst_bind_Raise. by apply fst_bind_Raise.
Qed.

(** C2, as stated, fails: a file holding the empty JSON object is not
    skipped, its KeyError escapes. *)
Lemma C2_empty_object_raises :
  content example_fs "empty.json" = Some (IsJSON (JObj []))
  ∧ fst (parse_file example_fs "empty.json" init) = Raise (KeyError (PStr "params"))
  ∧ fst (parse_all example_fs None ["empty.json"; "exp/results.json"] init)
    = Raise (KeyError (PStr "params")).
Proof. split_and!; vm_compute; reflexivity. Qed.

(** C2 (amended) at work on the file holding the empty object. *)
Lemma C2_witness :
  fst (parse_file example_fs "empty.json" init) = Raise (KeyError (PStr "params"))
  ∧ ∀ rest, fst (parse_all example_fs None ("empty.json" :: rest) init)
            = Raise (KeyError (PStr "params")).
Proof.
  apply (C2_missing_key_raises example_fs "empty.json" [] init).
  - vm_compute; reflexivity.
  - left. apply not_elem_of_nil.
Defined.

(** C5. A well-formed legacy document, whose parameters omit
    [experiment_type], does not reach the "not supported" failure: the type
    is defaulted to networkx, but [extract_parameters] then pops the absent
    key and raises KeyError.  No statistics object exists at that point. *)
Theorem C5_legacy_document_raises_KeyError :
  ∃ st',
    parse_file example_fs "legacy.json" init
    = (Raise (KeyError (PStr "experiment_type")), st')
    ∧ self_experiment_type st' = PStr "networkx"
    ∧ st_instances st' = [] ∧ self_stats st' = None.
Proof. eexists. split_and!; vm_compute; reflexivity. Qed.

(** With the type written out, the same document fails as unsupported. *)
Lemma networkx_document_not_supported :
  ∃ st',
    parse_file example_fs "networkx.json" init
    = (Raise (NotImplementedError "netx parsing not supported yet!"), st')
    ∧ st_instances st' = [] ∧ self_stats st' = None.
Proof. eexists. split_and!; vm_compute; reflexivity. Qed.

(** After [parse_file], the [params] member of the decoded document (the
    dict at location 4) holds the normalised mapping, in which the raw key
    [heuristic] is gone. *)
Lemma document_params_overwritten :
  ∃ st',
    parse_file example_fs "exp/results.json" init = (Return (PStats 0), st')
    ∧ member_contents (st_heap st') 4%positive "params" = Some example_kwargs
    ∧ (member_contents (snd (json_decode example_doc ∅)) 4%positive "params"
       ≫= (.!! "heuristic")) = Some (PStr "steiner")
    ∧ example_kwargs !! "heuristic" = None.
Proof. eexists. split_and!; vm_compute; reflexivity. Qed.

(** C6. A file that is not valid JSON is skipped: [parse_file] returns
    [None], raises nothing and changes nothing but the log, and the loops
    of both modes go on with the files that follow. *)
Theorem C6_invalid_json_skipped fs fname err st :
  content fs fname = Some (NotJSON err) →
  parse_file fs fname st = (Return PNone, skipped fname err st)
  ∧ (∀ rest,
       parse_all fs None (fname :: rest) st
       = parse_all fs None rest (skipped fname err st))
  ∧ (∀ dirname name names,
       OsPath.join dirname name = fname →
       PyStr.endswith ".progress" fname = false →
       isfile fs fname = true →
       for_each (parse_entry fs dirname) (name :: names) st
       = for_each (parse_entry fs dirname) names (skipped fname err st)).
Proof.
  intros Hc.
  assert (Hpf : parse_file fs fname st = (Return PNone, skipped fname err st)).
  { unfold parse_file. rewrite bind_log, Hc. reflexivity. }
  split_and!; [done| |].
  - intros rest. cbn [parse_all for_each]. unfold bind at 1 2. by rewrite Hpf.
  - intros dirname name names Hj Hp Hf. cbn [for_each]. unfold parse_entry at 1.
    rewrite Hj, Hp, Hf. cbn [orb negb]. unfold bind at 1 2. by rewrite Hpf.
Qed.

(** C6 at work: the stray file is skipped and the result file after it is
    merged. *)
Lemma C6_witness :
  parse_file example_fs "exp/notes.txt" init
  = (Return PNone, skipped "exp/notes.txt" "No JSON object could be decoded" init)
  ∧ ∃ st',
      parse_all example_fs None ["exp/notes.txt"; "exp/results.json"] init = (Return tt, st')
      ∧ st_instances st'
        = [[Construct ["exp/outputs/run0"; "exp/outputs/run1"]; ParseAll None example_kwargs]].
Proof.
  destruct (C6_invalid_json_skipped example_fs "exp/notes.txt"
              "No JSON object could be decoded" init eq_refl) as (Hskip & Hfiles & _).
  split; [exact Hskip|].
  rewrite Hfiles. eexists. split; vm_compute; reflexivity.
Defined.

(** In directory mode the in-progress file is not opened, the stray file is
    skipped and both result files are merged. *)
Lemma directory_run :
  ∃ st',
    parse_all example_fs (Some ["exp"]) [] init = (Return tt, st')
    ∧ st_instances st'
      = [[Construct ["exp/outputs/run0"; "exp/outputs/run1"];
          ParseAll None example_kwargs;
          ParseAll (Some ["exp/more/run2"]) example_kwargs]]
    ∧ self_stats st' = Some 0%nat.
Proof. eexists. split_and!; vm_compute; reflexivity. Qed.

(** ** Run extraction: properties of [extract_stats_from_results] *)

Lemma join_empty_l b : OsPath.join "" b = b.
Proof. unfold OsPath.join. by destruct (PyStr.startswith "/" b). Qed.

Lemma map_join_empty outs : map (OsPath.join "") outs = outs.
Proof. induction outs as [|o outs IH]; [done|]. cbn. by rewrite join_empty_l, IH. Qed.

(** A relative [outputs_dir] is appended to the directory of the file. *)
Lemma join_relative_dir base o :
  PyStr.startswith "/" o = false →
  PyStr.is_empty base = false →
  PyStr.endswith "/" base = false →
  OsPath.join base o = base ++ "/" ++ o.
Proof. unfold OsPath.join. by intros -> -> ->. Qed.

Lemma map_M_resolve_run base runs outs st :
  run_outputs (st_heap st) runs outs →
  map_M (resolve_run base) runs st = (Return (map (OsPath.join base) outs), st).
Proof.
  induction 1 as [|run o runs outs (li & di & -> & Hli & Ho) _ IH]; [done|].
  cbn [map_M map]. unfold resolve_run at 1. cbn [py_getitem].
  rewrite bind_assoc, (bind_dict_getitem li di) by done. rewrite Ho.
  cbn [os_path_join]. rewrite bind_ret. unfold bind at 1. by rewrite IH.
Qed.

Lemma insert_length_snoc {A} (l : list A) x y :
  <[List.length l := y]> (l ++ [x])%list = (l ++ [y])%list.
Proof. induction l as [|a l IH]; [done|]. cbn. f_equal. exact IH. Qed.

Lemma lookup_length_snoc {A} (l : list A) x : (l ++ [x])%list !! List.length l = Some x.
Proof. induction l as [|a l IH]; [done|]. exact IH. Qed.

(** C9. In the mininet path every run's [outputs_dir] is joined to the
    directory of the source file, the resolved directories are handed to
    the statistics object in the order of [results], and without a file
    name a warning is logged and the directories are taken as they are,
    that is relative to the working directory. *)
Theorem C9_outputs_resolved_against_source_file st runs outs filename et kw :
  eq_str (effective_type et st) "mininet" = true →
  run_outputs (st_heap st) runs outs →
  (∀ j, self_stats st = Some j → is_Some (st_instances st !! j)) →
  let dirs := map (OsPath.join (OsPath.dirname (default "" filename))) outs in
  ∃ i st',
    extract_stats_from_results (PList runs) filename et kw st = (Return (PStats i), st')
    ∧ match self_stats st with
      | None =>
          st_instances st' = (st_instances st ++ [[Construct dirs; ParseAll None kw]])%list
      | Some j =>
          ∃ calls, st_instances st !! j = Some calls
                   ∧ st_instances st'
                     = <[j := (calls ++ [ParseAll (Some dirs) kw])%list]> (st_instances st)
      end
    ∧ match filename with
      | Some _ => st_log st' = st_log st
      | None => dirs = outs
                ∧ st_log st' = (st_log st ++ [Log WARNING no_filename_warning []])%list
      end.
Proof.
  intros Het Hruns Hinst dirs.
  unfold extract_stats_from_results. rewrite bind_effective, Het.
  set (st1 := match filename with
              | Some _ => st
              | None => add_log (Log WARNING no_filename_warning []) st
              end).
  assert (Hpre : ∀ B (K : string → M B),
            bind (match filename with
                  | None => log WARNING no_filename_warning [] ;; ret ""
                  | Some f => ret f
                  end) K st = K (default "" filename) st1).
  { intros B K. subst st1. by destruct filename. }
  rewrite Hpre. cbn [py_iter]. rewrite bind_ret.
  assert (Hruns1 : run_outputs (st_heap st1) runs outs) by (subst st1; by destruct filename).
  unfold bind at 1. rewrite (map_M_resolve_run _ _ _ _ Hruns1). fold dirs.
  rewrite bind_get_state.
  assert (Hs1 : self_stats st1 = self_stats st) by (subst st1; by destruct filename).
  assert (Hi1 : st_instances st1 = st_instances st) by (subst st1; by destruct filename).
  assert (Hlog : match filename with
                 | Some _ => st_log st1 = st_log st
                 | None => dirs = outs
                           ∧ st_log st1 = (st_log st ++ [Log WARNING no_filename_warning []])%list
                 end).
  { subst st1 dirs. destruct filename; [done|]. split; [apply map_join_empty|done]. }
  rewrite Hs1. destruct (self_stats st) as [j|] eqn:Hj.
  - destruct (Hinst j eq_refl) as [calls Hcalls].
    exists j. eexists. split_and!.
    + unfold bind, stats_parse_all, get_state, ret. rewrite Hi1, Hcalls. cbn.
      rewrite Hs1. reflexivity.
    + exists calls. split; [done|]. reflexivity.
    + cbn. exact Hlog.
  - exists (List.length (st_instances st)). eexists. split_and!.
    + unfold bind, MininetSeismicStatistics, modify, stats_parse_all, get_state, ret. cbn.
      rewrite Hi1, lookup_length_snoc. cbn. reflexivity.
    + cbn. by rewrite ?Hi1, insert_length_snoc.
    + cbn. exact Hlog.
Qed.

(** C9 at work on the two runs of the example document. *)
Lemma C9_witness :
  ∃ i st',
    extract_stats_from_results (PList [PDict 2%positive; PDict 3%positive])
      (Some "exp/results.json") (PStr "mininet") example_kwargs runs_state
    = (Return (PStats i), st')
    ∧ st_instances st'
      = [[Construct ["exp/outputs/run0"; "exp/outputs/run1"]; ParseAll None example_kwargs]].
Proof.
  destruct (C9_outputs_resolved_against_source_file runs_state
              [PDict 2%positive; PDict 3%positive] ["outputs/run0"; "outputs/run1"]
              (Some "exp/results.json") (PStr "mininet") example_kwargs)
    as (i & st' & Hrun & Hinst & _).
  - reflexivity.
  - repeat constructor.
    + exists 2%positive, {["run" := PInt 0; "outputs_dir" := PStr "outputs/run0"]}.
      split_and!; [reflexivity| |]; vm_compute; reflexivity.
    + exists 3%positive, {["run" := PInt 1; "outputs_dir" := PStr "outputs/run1"]}.
      split_and!; [reflexivity| |]; vm_compute; reflexivity.
  - intros j Hj. discriminate Hj.
  - exists i, st'. split; [exact Hrun|]. exact Hinst.
Defined.

(** ** The single shared statistics object *)

Section Readonly.
Lemma readonly_ret {A} (a : A) : readonly (ret a).
Proof. intros st r st' [= _ <-]. done. Qed.

Lemma readonly_raise {A} e : readonly (@raise A e).
Proof. intros st r st' [= _ <-]. done. Qed.

Lemma readonly_bind {A B} (m : M A) (k : A → M B) :
  readonly m → (∀ a, readonly (k a)) → readonly (bind m k).
Proof.
  intros Hm Hk st r st'. unfold bind.
  destruct (m st) as [[a|e] st1] eqn:E; apply Hm in E as ->.
  - apply Hk.
  - by intros [= _ <-].
Qed.

Lemma readonly_load l : readonly (load l).
Proof. intros st r st'. unfold load. destruct (st_heap st !! l); by intros [= _ <-]. Qed.

Lemma readonly_of_index {A} (o : option A) : readonly (of_index o).
Proof. destruct o; [apply readonly_ret|apply readonly_raise]. Qed.

Lemma readonly_dict_getitem l k : readonly (dict_getitem l k).
Proof.
  apply readonly_bind; [apply readonly_load|]. intros d.
  destruct (d !! k); [apply readonly_ret|apply readonly_raise].
Qed.

Lemma readonly_dict_get l k dflt : readonly (dict_get l k dflt).
Proof. apply readonly_bind; [apply readonly_load|]. intros d. apply readonly_ret. Qed.

Lemma readonly_py_getitem o k : readonly (py_getitem o k).
Proof.
  destruct o, k; cbn [py_getitem];
    first [ apply readonly_raise | apply readonly_of_index | apply readonly_dict_getitem
          | apply readonly_bind; [apply readonly_load|intros ?; apply readonly_raise] ].
Qed.

Lemma readonly_py_get o k dflt : readonly (py_get o k dflt).
Proof. destruct o; first [apply readonly_raise | apply readonly_dict_get]. Qed.

Lemma readonly_py_iter o : readonly (py_iter o).
Proof.
  destruct o; cbn [py_iter]; first [apply readonly_raise | apply readonly_ret | idtac].
  apply readonly_bind; [apply readonly_load|]. intros d. apply readonly_ret.
Qed.

Lemma readonly_resolve_run base run : readonly (resolve_run base run).
Proof.
  apply readonly_bind; [apply readonly_py_getitem|]. intros out.
  destruct out; first [apply readonly_raise | apply readonly_ret].
Qed.

Lemma readonly_map_M {A B} (f : A → M B) xs :
  (∀ x, readonly (f x)) → readonly (map_M f xs).
Proof.
  intros Hf. induction xs as [|x xs IH]; [apply readonly_ret|].
  apply readonly_bind; [apply Hf|]. intros y.
  apply readonly_bind; [apply IH|]. intros ys. apply readonly_ret.
Qed.
End Readonly.

Section Keeps.
Lemma readonly_keeps {A} (m : M A) : readonly m → keeps m.
Proof. intros Hm st r st' H. by apply Hm in H as ->. Qed.

Lemma keeps_ret {A} (a : A) : keeps (ret a).
Proof. apply readonly_keeps, readonly_ret. Qed.

Lemma keeps_raise {A} e : keeps (@raise A e).
Proof. apply readonly_keeps, readonly_raise. Qed.

Lemma keeps_bind {A B} (m : M A) (k : A → M B) :
  keeps m → (∀ a, keeps (k a)) → keeps (bind m k).
Proof.
  intros Hm Hk st r st'. unfold bind.
  destruct (m st) as [[a|e] st1] eqn:E; apply Hm in E as [Hi Hs].
  - intros H. apply Hk in H as [-> ->]. by split.
  - intros [= _ <-]. by split.
Qed.

Lemma keeps_get_state : keeps get_state.
Proof. by intros st r st' [= _ <-]. Qed.

Lemma keeps_log lv fmt args : keeps (log lv fmt args).
Proof. by intros st r st' [= _ <-]. Qed.

Lemma keeps_load l : keeps (load l).
Proof. apply readonly_keeps, readonly_load. Qed.

Lemma keeps_store l d : keeps (store l d).
Proof. by intros st r st' [= _ <-]. Qed.

Lemma keeps_set_experiment_type v : keeps (modify (set_experiment_type v)).
Proof. by intros st r st' [= _ <-]. Qed.

Lemma keeps_json_load doc : keeps (json_load doc).
Proof.
  intros st r st'. unfold json_load.
  destruct (json_decode doc (st_heap st)) as [v h]. by intros [= _ <-].
Qed.

Lemma keeps_for_each {A} (body : A → M unit) xs :
  (∀ x, keeps (body x)) → keeps (for_each body xs).
Proof.
  intros Hb. induction xs as [|x xs IH]; [apply keeps_ret|].
  apply keeps_bind; [apply Hb|]. intros _. apply IH.
Qed.
End Keeps.

Ltac keeps_step :=
  lazymatch goal with
  | |- keeps (bind _ _) => apply keeps_bind; [|intros ?]
  | |- keeps (ret _) => apply keeps_ret
  | |- keeps (raise _) => apply keeps_raise
  | |- keeps get_state => apply keeps_get_state
  | |- keeps (log _ _ _) => apply keeps_log
  | |- keeps (load _) => apply keeps_load
  | |- keeps (store _ _) => apply keeps_store
  | |- keeps (of_index _) => apply readonly_keeps, readonly_of_index
  | |- keeps (py_getitem _ _) => apply readonly_keeps, readonly_py_getitem
  | |- keeps (py_get _ _ _) => apply readonly_keeps, readonly_py_get
  | |- keeps (for_each _ _) => apply keeps_for_each; intros ?
  | |- keeps (match ?x with _ => _ end) => destruct x
  end.

Ltac keeps_tac :=
  repeat first
    [ keeps_step
    | progress unfold dict_getitem, dict_get, dict_setitem, dict_pop, dict_delitem,
        dict_items, clear_null, py_split, py_float ].

(** Normalisation never touches the statistics objects. *)
Lemma keeps_extract_parameters l et : keeps (extract_parameters l et).
Proof. unfold extract_parameters. keeps_tac. Qed.

Lemma single_aggregate_keeps st st' :
  st_instances st' = st_instances st → self_stats st' = self_stats st →
  single_aggregate st → single_aggregate st'.
Proof. unfold single_aggregate. by intros -> ->. Qed.

Lemma keeps_preserves {A} (m : M A) : keeps m → preserves m.
Proof.
  intros Hm st r st' Hinv H. apply Hm in H as [Hi Hs].
  by apply (single_aggregate_keeps st).
Qed.

Lemma preserves_bind {A B} (m : M A) (k : A → M B) :
  preserves m → (∀ a, preserves (k a)) → preserves (bind m k).
Proof.
  intros Hm Hk st r st' Hinv. unfold bind.
  destruct (m st) as [[a|e] st1] eqn:E; apply Hm in E; try done.
  - by apply Hk.
  - by intros [= _ <-].
Qed.

Lemma preserves_for_each {A} (body : A → M unit) xs :
  (∀ x, preserves (body x)) → preserves (for_each body xs).
Proof.
  intros Hb. induction xs as [|x xs IH]; [apply keeps_preserves, keeps_ret|].
  apply preserves_bind; [apply Hb|]. intros _. apply IH.
Qed.

(** One extraction, whatever its outcome, maintains [single_aggregate]; when
    it returns, it returns the one instance, which it constructed if there
    was none and merged into otherwise. *)
Lemma extract_stats_single results filename et kw st r st' :
  single_aggregate st →
  extract_stats_from_results results filename et kw st = (r, st') →
  single_aggregate st'
  ∧ ∀ v, r = Return v →
      v = PStats 0 ∧ self_stats st' = Some 0%nat
      ∧ ∃ dirs,
          st_instances st'
          = match st_instances st with
            | [] => [[Construct dirs; ParseAll None kw]]
            | calls :: _ => [(calls ++ [ParseAll (Some dirs) kw])%list]
            end.
Proof.
  intros Hinv. unfold extract_stats_from_results. rewrite bind_effective.
  destruct (eq_str (effective_type et st) "mininet").
  2:{ destruct (eq_str (effective_type et st) "networkx").
      - intros [= <- <-]. by split.
      - intros [= <- <-]. by split. }
  set (st1 := match filename with
              | Some _ => st
              | None => add_log (Log WARNING no_filename_warning []) st
              end).
  assert (Hpre : ∀ B (K : string → M B),
            bind (match filename with
                  | None => log WARNING no_filename_warning [] ;; ret ""
                  | Some f => ret f
                  end) K st = K (default "" filename) st1).
  { intros B K. subst st1. by destruct filename. }
  rewrite Hpre.
  assert (Hs1 : self_stats st1 = self_stats st) by (subst st1; by destruct filename).
  assert (Hi1 : st_instances st1 = st_instances st) by (subst st1; by destruct filename).
  assert (Hinv1 : single_aggregate st1) by by apply (single_aggregate_keeps st).
  clearbody st1. clear Hpre.
  unfold bind at 1.
  destruct (py_iter results st1) as [[runs|e] st2] eqn:Hiter;
    apply readonly_py_iter in Hiter as ->; [|intros [= <- <-]; by split].
  unfold bind at 1.
  destruct (map_M (resolve_run (OsPath.dirname (default "" filename))) runs st1)
    as [[dirs|e] st2] eqn:Hmap;
    apply (readonly_map_M _ _ (readonly_resolve_run _)) in Hmap as ->;
    [|intros [= <- <-]; by split].
  rewrite bind_get_state. unfold single_aggregate in Hinv1.
  destruct (self_stats st1) as [i|] eqn:Hi.
  - destruct Hinv1 as [-> Hlen].
    destruct (st_instances st1) as [|calls [|? ?]] eqn:Hinst; try discriminate Hlen.
    unfold bind, stats_parse_all, get_state, ret. rewrite Hinst. cbn. rewrite Hi.
    intros [= <- <-]. split.
    + unfold single_aggregate. cbn. by rewrite Hi.
    + intros v [= <-]. split_and!; [done|done|]. exists dirs. rewrite <- Hi1. reflexivity.
  - unfold bind, MininetSeismicStatistics, modify, stats_parse_all, get_state, ret.
    rewrite Hinv1. cbn. intros [= <- <-]. split.
    + by unfold single_aggregate.
    + intros v [= <-]. split_and!; [done|done|]. exists dirs. by rewrite <- Hi1, Hinv1.
Qed.

Lemma preserves_extract_stats results filename et kw :
  preserves (extract_stats_from_results results filename et kw).
Proof. intros st r st' Hinv H. by apply (extract_stats_single _ _ _ _ _ _ _ Hinv H). Qed.

Lemma preserves_parse_file fs fname : preserves (parse_file fs fname).
Proof.
  unfold parse_file.
  apply preserves_bind; [apply keeps_preserves, keeps_log|]. intros _.
  destruct (content fs fname) as [[err|doc]|].
  - apply keeps_preserves. keeps_tac.
  - apply preserves_bind; [apply keeps_preserves, keeps_json_load|]. intros data.
    apply preserves_bind; [apply keeps_preserves; keeps_tac|]. intros params.
    apply preserves_bind; [apply keeps_preserves; keeps_tac|]. intros results.
    apply preserves_bind; [apply keeps_preserves; keeps_tac|]. intros p.
    apply preserves_bind; [apply keeps_preserves; keeps_tac|]. intros t.
    apply preserves_bind; [apply keeps_preserves, keeps_set_experiment_type|]. intros _.
    apply preserves_bind.
    { apply keeps_preserves. destruct params; try apply keeps_raise.
      apply keeps_extract_parameters. }
    intros params'.
    apply preserves_bind; [|intros ?; apply keeps_preserves; unfold record_stats; keeps_tac].
    unfold call_extract_stats. destruct params'; try (apply keeps_preserves, keeps_raise).
    apply preserves_bind; [apply keeps_preserves, keeps_load|]. intros kws.
    match goal with |- preserves (if ?b then _ else _) => destruct b end.
    + apply keeps_preserves, keeps_raise.
    + apply preserves_extract_stats.
  - apply keeps_preserves, keeps_raise.
Qed.

Lemma preserves_parse_all fs dirs files : preserves (parse_all fs dirs files).
Proof.
  destruct dirs as [ds|]; cbn [parse_all].
  - apply preserves_for_each. intros dirname. unfold parse_dir.
    apply preserves_bind; [apply keeps_preserves, keeps_log|]. intros _.
    destruct (listdir fs dirname) as [names|]; [|apply keeps_preserves, keeps_raise].
    apply preserves_for_each. intros name. unfold parse_entry.
    match goal with |- preserves (if ?b then _ else _) => destruct b end.
    + apply keeps_preserves, keeps_ret.
    + apply preserves_bind; [apply preserves_parse_file|].
      intros _. apply keeps_preserves, keeps_ret.
  - apply preserves_for_each. intros fname.
    apply preserves_bind; [apply preserves_parse_file|].
    intros _. apply keeps_preserves, keeps_ret.
Qed.

(** C4. Over one run at most one statistics object is ever constructed: the
    invariant holds initially and after any run, whatever its outcome; an
    extraction that returns constructs the object if there was none and
    otherwise merges into the existing one; and two successive extractions
    return the same object. *)
Theorem C4_single_shared_aggregate :
  single_aggregate init
  ∧ (∀ fs dirs files r st',
       parse_all fs dirs files init = (r, st') →
       single_aggregate st' ∧ (List.length (st_instances st') ≤ 1)%nat)
  ∧ (∀ st results filename et kw v st',
       single_aggregate st →
       extract_stats_from_results results filename et kw st = (Return v, st') →
       single_aggregate st' ∧ v = PStats 0 ∧ self_stats st' = Some 0%nat
       ∧ ∃ dirs,
           st_instances st'
           = match st_instances st with
             | [] => [[Construct dirs; ParseAll None kw]]
             | calls :: _ => [(calls ++ [ParseAll (Some dirs) kw])%list]
             end)
  ∧ (∀ st res1 fn1 et1 kw1 v1 st1 res2 fn2 et2 kw2 v2 st2,
       single_aggregate st →
       extract_stats_from_results res1 fn1 et1 kw1 st = (Return v1, st1) →
       extract_stats_from_results res2 fn2 et2 kw2 st1 = (Return v2, st2) →
       v2 = v1 ∧ List.length (st_instances st2) = 1%nat).
Proof.
  assert (Hinit : single_aggregate init) by done.
  assert (Hone : ∀ st results filename et kw v st',
            single_aggregate st →
            extract_stats_from_results results filename et kw st = (Return v, st') →
            single_aggregate st' ∧ v = PStats 0 ∧ self_stats st' = Some 0%nat
            ∧ ∃ dirs,
                st_instances st'
                = match st_instances st with
                  | [] => [[Construct dirs; ParseAll None kw]]
                  | calls :: _ => [(calls ++ [ParseAll (Some dirs) kw])%list]
                  end).
  { intros st results filename et kw v st' Hinv H.
    destruct (extract_stats_single _ _ _ _ _ _ _ Hinv H) as [Hinv' Hret].
    destruct (Hret v eq_refl) as (-> & Hs & Hd). by split_and!. }
  split_and!; [done| |exact Hone|].
  - intros fs dirs files r st' H.
    pose proof (preserves_parse_all fs dirs files init r st' Hinit H) as Hinv.
    split; [done|]. unfold single_aggregate in Hinv.
    destruct (self_stats st'); [destruct Hinv as [_ ->]|rewrite Hinv]; cbn; lia.
  - intros st res1 fn1 et1 kw1 v1 st1 res2 fn2 et2 kw2 v2 st2 Hinv H1 H2.
    destruct (Hone _ _ _ _ _ _ _ Hinv H1) as (Hinv1 & -> & _ & _).
    destruct (Hone _ _ _ _ _ _ _ Hinv1 H2) as (Hinv2 & -> & Hs2 & _).
    split; [done|]. unfold single_aggregate in Hinv2. rewrite Hs2 in Hinv2. by destruct Hinv2.
Qed.

(** C4 at work: two extractions in a row return the same instance. *)
Lemma C4_witness :
  ∃ v1 st1 v2 st2,
    extract_stats_from_results (PList [PDict 2%positive; PDict 3%positive])
      (Some "exp/results.json") (PStr "mininet") example_kwargs runs_state
    = (Return v1, st1)
    ∧ extract_stats_from_results (PList [PDict 3%positive])
        (Some "exp/second.json") (PStr "mininet") example_kwargs st1
      = (Return v2, st2)
    ∧ v2 = v1
    ∧ List.length (st_instances st2) = 1%nat.
Proof.
  destruct C4_single_shared_aggregate as (_ & _ & _ & Hsame).
  eexists _, _, _, _.
  assert (H1 : extract_stats_from_results (PList [PDict 2%positive; PDict 3%positive])
                 (Some "exp/results.json") (PStr "mininet") example_kwargs runs_state
               = (Return (PStats 0),
                  set_instances
                    [[Construct ["exp/outputs/run0"; "exp/outputs/run1"];
                      ParseAll None example_kwargs]]
                    (set_stats (Some 0%nat) runs_state)))
    by (vm_compute; reflexivity).
  assert (H2 : extract_stats_from_results (PList [PDict 3%positive])
                 (Some "exp/second.json") (PStr "mininet") example_kwargs
                 (set_instances
                    [[Construct ["exp/outputs/run0"; "exp/outputs/run1"];
                      ParseAll None example_kwargs]]
                    (set_stats (Some 0%nat) runs_state))
               = (Return (PStats 0),
                  set_instances
                    [[Construct ["exp/outputs/run0"; "exp/outputs/run1"];
                      ParseAll None example_kwargs;
                      ParseAll (Some ["exp/outputs/run1"]) example_kwargs]]
                    (set_stats (Some 0%nat) runs_state)))
    by (vm_compute; reflexivity).
  split; [exact H1|]. split; [exact H2|].
  exact (Hsame runs_state _ _ _ _ _ _ _ _ _ _ _ _ eq_refl H1 H2).
Defined.

(** ** What [extract_parameters] computes on every input *)

Lemma frame_add_log_r r st st1 : frame st st1 → frame st (add_log r st1).
Proof. intros H. eapply frame_trans; [exact H|apply frame_add_log]. Qed.

(** Indexing only reads the store. *)
Lemma py_getitem_outcome o k st :
  py_getitem o k st = (getitem_outcome (st_heap st) o k, st).
Proof.
  unfold getitem_outcome.
  destruct o, k; cbn [py_getitem]; try reflexivity;
    try (destruct (seq_index _ _); reflexivity);
    try (destruct (char_at _ _); reflexivity);
    unfold dict_getitem, bind, load, raise, ret; cbn;
    destruct (st_heap st !! l) as [d|]; try reflexivity;
    destruct (d !! _); reflexivity.
Qed.

Lemma bind_py_getitem {B} o k (K : pyval → M B) st :
  bind (py_getitem o k) K st =
  match getitem_outcome (st_heap st) o k with
  | Return v => K v st
  | Raise e => (Raise e, st)
  end.
Proof. unfold bind. rewrite py_getitem_outcome. by destruct (getitem_outcome _ _ _). Qed.

Ltac heap_norm :=
  repeat first [ rewrite st_heap_upd | rewrite st_heap_add_log | rewrite insert_insert_eq ].

Ltac frame_tac :=
  repeat first [ apply frame_upd_r | apply frame_add_log_r ];
  first [ apply frame_refl | eassumption ].

(** The [topo] statement run on the dict at [l]. *)
Lemma topo_step_computes l d st tv :
  st_heap st !! l = Some d →
  d !! "topo" = Some tv →
  ∃ st',
    topo_step l tv st = (fst (norm_topo (st_heap st) l d), st')
    ∧ st_heap st' = <[l:=snd (norm_topo (st_heap st) l d)]> (st_heap st)
    ∧ frame st st'.
Proof.
  intros Hl Ht. unfold topo_step, norm_topo. rewrite Ht.
  assert (Hid : <[l:=d]> (st_heap st) = st_heap st) by by apply insert_id.
  destruct (is_basestring tv); cbn [fst snd].
  - exists st. split_and!; [done|by rewrite Hid|apply frame_refl].
  - rewrite (bind_dict_getitem l d) by done. rewrite Ht, bind_py_getitem, Hid.
    destruct (getitem_outcome (st_heap st) tv (PInt 1)) as [name|e]; cbn [fst snd].
    + rewrite (bind_dict_setitem l d) by done.
      rewrite (bind_dict_getitem l (<["topo":=name]> d)) by apply lookup_upd.
      rewrite lookup_insert_eq.
      destruct (is_basestring name); cbn [fst snd]; eexists;
        (split_and!; [reflexivity|by heap_norm|frame_tac]).
    + exists st. split_and!; [done|by rewrite Hid|apply frame_refl].
Qed.

Lemma getitem_outcome_not_exit h o k c : getitem_outcome h o k ≠ Raise (SystemExit c).
Proof.
  unfold getitem_outcome.
  destruct o, k; cbn [py_getitem]; try discriminate;
    try (destruct (seq_index _ _); discriminate);
    try (destruct (char_at _ _); discriminate);
    unfold dict_getitem, bind, load, raise, ret; cbn;
    destruct (h !! l) as [d|]; try discriminate;
    destruct (d !! _); discriminate.
Qed.

Lemma norm_topo_not_exit h l d c : fst (norm_topo h l d) ≠ Raise (SystemExit c).
Proof.
  unfold norm_topo. destruct (d !! "topo") as [tv|]; [|discriminate].
  destruct (is_basestring tv); [discriminate|].
  pose proof (getitem_outcome_not_exit (<[l:=d]> h) tv (PInt 1) c) as Hne.
  destruct (getitem_outcome (<[l:=d]> h) tv (PInt 1)) as [name|e];
    [|cbn; intros [= ->]; by apply Hne].
  destruct (is_basestring name); discriminate.
Qed.

Ltac no_exit := cbn [fst snd returned]; intros; discriminate.

(** For every raw dict and every experiment type, the call ends as
    [normal_form] says and leaves the contents [normal_form] gives in the
    very cell it was handed; nothing but that cell and the log changes, and
    when the call ends in [exit(1)] the last log record is the error. *)
Lemma extract_parameters_computes l et st d :
  st_heap st !! l = Some d →
  let nf := normal_form (st_heap st) l (effective_type et st) d in
  ∃ st',
    extract_parameters l et st = (returned l (fst nf), st')
    ∧ st_heap st' = <[l:=snd nf]> (st_heap st)
    ∧ frame st st'
    ∧ (fst nf = Raise (SystemExit 1) →
       last (st_log st') = Some (unrecognized_record (effective_type et st))).
Proof.
  intros Hl nf. subst nf. unfold extract_parameters, normal_form.
  assert (Hid : <[l:=d]> (st_heap st) = st_heap st) by by apply insert_id.
  rewrite bind_effective.
  rewrite (bind_dict_pop l d) by done.
  destruct (d !! "heuristic") as [hv|].
  2:{ cbn [fst snd returned]. exists st.
      split_and!; [done|by rewrite Hid|apply frame_refl|no_exit]. }
  rewrite (bind_dict_setitem l (delete "heuristic" d)) by apply lookup_upd.
  set (d1 := <["const_alg":=hv]> (delete "heuristic" d)).
  rewrite (bind_dict_pop l d1) by apply lookup_upd.
  destruct (d1 !! "experiment_type") as [ev|].
  2:{ cbn [fst snd returned]. eexists.
      split_and!; [reflexivity|by heap_norm|frame_tac|no_exit]. }
  rewrite (bind_dict_setitem l (delete "experiment_type" d1)) by apply lookup_upd.
  set (d2 := <["exp_type":=ev]> (delete "experiment_type" d1)).
  rewrite (bind_dict_pop l d2) by apply lookup_upd.
  destruct (d2 !! "failure_model") as [fm|].
  2:{ cbn [fst snd returned]. eexists.
      split_and!; [reflexivity|by heap_norm|frame_tac|no_exit]. }
  rewrite bind_py_split.
  destruct fm as [| | | |s| | |];
    try (cbn [fst snd returned]; eexists;
         split_and!; [reflexivity|by heap_norm|frame_tac|no_exit]).
  rewrite bind_of_index.
  destruct (seq_index (PyStr.split PyStr.slash s) 1) as [c|].
  2:{ cbn [fst snd returned]. eexists.
      split_and!; [reflexivity|by heap_norm|frame_tac|no_exit]. }
  rewrite bind_py_float.
  destruct (PyFloat.of_string c) as [f|].
  2:{ cbn [fst snd returned]. eexists.
      split_and!; [reflexivity|by heap_norm|frame_tac|no_exit]. }
  rewrite (bind_dict_setitem l (delete "failure_model" d2)) by apply lookup_upd.
  set (d3 := <["fprob":=PFloat f]> (delete "failure_model" d2)).
  match goal with |- context [bind (dict_getitem l "topo") _ ?s0] => set (st3 := s0) end.
  assert (Hl3 : st_heap st3 !! l = Some d3) by apply lookup_upd.
  assert (Hh3 : ∀ dd, <[l:=dd]> (st_heap st3) = <[l:=dd]> (st_heap st))
    by (intros dd; subst st3; by heap_norm).
  assert (Hfr3 : frame st st3) by (subst st3; frame_tac).
  assert (Hnt : norm_topo (st_heap st3) l d3 = norm_topo (st_heap st) l d3).
  { unfold norm_topo. by rewrite Hh3. }
  clearbody st3.
  rewrite (bind_dict_getitem l d3) by done.
  destruct (d3 !! "topo") as [tv|] eqn:Htv.
  2:{ exists st3. unfold norm_topo. rewrite Htv. cbn [fst snd returned].
      split_and!; [done|by rewrite <- Hh3, insert_id|done|no_exit]. }
  change (if is_basestring tv then ret tt else _) with (topo_step l tv).
  destruct (topo_step_computes l d3 st3 tv Hl3 Htv) as (st4 & Hrun4 & Hh4 & Hfr4).
  rewrite Hnt in Hrun4, Hh4. rewrite Hh3 in Hh4.
  unfold bind at 1. rewrite Hrun4.
  pose proof (norm_topo_not_exit (st_heap st) l d3 1) as Hne.
  destruct (norm_topo (st_heap st) l d3) as [[[]|e] d4]; cbn [fst snd] in *.
  2:{ exists st4. split_and!; [done|done|by eapply frame_trans|done]. }
  assert (Hl4 : st_heap st4 !! l = Some d4) by (rewrite Hh4; apply lookup_insert_eq).
  rewrite (bind_dict_items l d4) by done.
  destruct (clear_nulls_run l d4 st4 Hl4) as (st5 & Hrun5 & Hh5 & Hfr5).
  unfold bind at 1. rewrite Hrun5.
  assert (Hh5' : ∀ dd, <[l:=dd]> (st_heap st5) = <[l:=dd]> (st_heap st)).
  { intros dd. by rewrite Hh5, Hh4, !insert_insert_eq. }
  assert (Hl5 : st_heap st5 !! l = Some (drop_nulls d4)) by (rewrite Hh5; apply lookup_insert_eq).
  assert (Hfr : frame st st5) by (repeat (eapply frame_trans; [|eassumption]); done).
  clear Hrun4 Hrun5 Hh4 Hfr4 Hfr5 Hl4 Hfr3 Hl3 Hh3 Hnt Hne.
  set (d5 := drop_nulls d4) in *. clearbody d5.
  unfold norm_dispatch.
  destruct (eq_str (effective_type et st) "mininet").
  2:{ destruct (eq_str (effective_type et st) "networkx"); cbn [fst snd returned].
      - exists st5. split_and!; [done|by rewrite <- Hh5', insert_id|done|no_exit].
      - rewrite bind_log. unfold raise.
        eexists. split_and!; [reflexivity| |frame_tac|].
        + by rewrite st_heap_add_log, <- Hh5', insert_id.
        + intros _. cbn. by rewrite last_snoc. }
  rewrite (bind_dict_pop l d5) by done.
  destruct (d5 !! "tree_choosing_heuristic") as [sp|].
  2:{ cbn [fst snd returned]. exists st5.
      split_and!; [done|by rewrite <- Hh5', insert_id|done|no_exit]. }
  rewrite (bind_dict_setitem l (delete "tree_choosing_heuristic" d5)) by apply lookup_upd.
  fold (with_select_policy d5 sp). set (d6 := with_select_policy d5 sp).
  rewrite (bind_dict_get l d6) by apply lookup_upd.
  rewrite bind_get_state.
  assert (Htr : st_heap (upd l d6 (upd l (delete "tree_choosing_heuristic" d5) st5))
                = <[l:=d6]> (st_heap st)) by (heap_norm; apply Hh5').
  rewrite Htr.
  destruct (truthy (<[l:=d6]> (st_heap st)) (default PNone (d6 !! "n_traffic_generators")));
    cbn [negb].
  { cbn [fst snd returned]. eexists.
    split_and!; [reflexivity|by rewrite Htr|frame_tac|no_exit]. }
  rewrite bind_assoc.
  rewrite (bind_dict_delitem l d6) by apply lookup_upd.
  destruct (d6 !! "n_traffic_generators").
  2:{ cbn [fst snd returned]. eexists.
      split_and!; [reflexivity|by rewrite Htr|frame_tac|no_exit]. }
  rewrite (bind_dict_delitem l (delete "n_traffic_generators" d6)) by apply lookup_upd.
  destruct (delete "n_traffic_generators" d6 !! "traffic_generator_bandwidth");
    cbn [fst snd returned]; eexists;
    (split_and!; [reflexivity|heap_norm; apply Hh5'|frame_tac|no_exit]).
Qed.

(** ** Further properties of [extract_parameters] *)

Lemma extract_parameters_no_heuristic l et st d :
  st_heap st !! l = Some d →
  d !! "heuristic" = None →
  extract_parameters l et st = (Raise (KeyError (PStr "heuristic")), st).
Proof.
  intros Hl Hh. unfold extract_parameters.
  rewrite bind_effective, (bind_dict_pop l d) by done. by rewrite Hh.
Qed.

(** X1. The three keys popped by name are required: the first one missing
    raises KeyError naming it.  Without [heuristic] the dict is left as it
    was; without [experiment_type] or [failure_model] the renames made so
    far stay in the dict. *)
Theorem X1_required_keys l et st d :
  st_heap st !! l = Some d →
  (d !! "heuristic" = None →
   extract_parameters l et st = (Raise (KeyError (PStr "heuristic")), st))
  ∧ (∀ hv, d !! "heuristic" = Some hv → d !! "experiment_type" = None →
       ∃ st', extract_parameters l et st = (Raise (KeyError (PStr "experiment_type")), st')
              ∧ st_heap st' = <[l:=<["const_alg":=hv]> (delete "heuristic" d)]> (st_heap st))
  ∧ (∀ hv ev, d !! "heuristic" = Some hv → d !! "experiment_type" = Some ev →
       d !! "failure_model" = None →
       ∃ st', extract_parameters l et st = (Raise (KeyError (PStr "failure_model")), st')
              ∧ st_heap st'
                = <[l:=<["exp_type":=ev]>
                         (delete "experiment_type"
                            (<["const_alg":=hv]> (delete "heuristic" d)))]> (st_heap st)).
Proof.
  intros Hl. split_and!.
  - by apply extract_parameters_no_heuristic.
  - intros hv Hh He.
    destruct (extract_parameters_computes l et st d Hl) as (st' & Hrun & Hheap & _).
    unfold normal_form in Hrun, Hheap. rewrite Hh in Hrun, Hheap.
    rewrite lookup_insert_ne, lookup_delete_ne, He in Hrun, Hheap by done.
    by exists st'.
  - intros hv ev Hh He Hf.
    destruct (extract_parameters_computes l et st d Hl) as (st' & Hrun & Hheap & _).
    unfold normal_form in Hrun, Hheap. rewrite Hh in Hrun, Hheap.
    rewrite lookup_insert_ne, lookup_delete_ne, He in Hrun, Hheap by done.
    rewrite lookup_insert_ne, lookup_delete_ne, lookup_insert_ne, lookup_delete_ne, Hf
      in Hrun, Hheap by done.
    by exists st'.
Qed.

(** X1 at work on the empty dict and on the worked example without its
    [failure_model]. *)
Lemma X1_witness :
  extract_parameters 1%positive (PStr "mininet") (at_cell ∅)
  = (Raise (KeyError (PStr "heuristic")), at_cell ∅)
  ∧ ∃ st', extract_parameters 1%positive (PStr "mininet")
             (at_cell (delete "failure_model" raw_example))
           = (Raise (KeyError (PStr "failure_model")), st').
Proof.
  split.
  - apply (X1_required_keys 1%positive (PStr "mininet") (at_cell ∅) ∅ (at_cell_lookup ∅)).
    reflexivity.
  - destruct (X1_required_keys 1%positive (PStr "mininet")
                (at_cell (delete "failure_model" raw_example)) _ (at_cell_lookup _))
      as (_ & _ & H).
    destruct (H (PStr "steiner") (PStr "mininet")) as (st' & Hrun & _);
      [vm_compute; reflexivity..|].
    by exists st'.
Defined.

Lemma normal_form_fprob h l ty d hv ev f :
  fprob_ready d hv ev f →
  normal_form h l ty d
  = match norm_topo h l (with_fprob d hv ev f) with
    | (Raise e, d4) => (Raise e, d4)
    | (Return _, d4) => norm_dispatch h l ty (drop_nulls d4)
    end.
Proof.
  intros (Hh & He & s & c & Hf & Hc & Hfl). unfold normal_form. rewrite Hh.
  rewrite lookup_insert_ne, lookup_delete_ne, He by done.
  rewrite lookup_insert_ne, lookup_delete_ne, lookup_insert_ne, lookup_delete_ne, Hf by done.
  by rewrite Hc, Hfl.
Qed.

Lemma with_fprob_other d hv ev f k :
  k ≠ "fprob" → k ≠ "failure_model" → k ≠ "exp_type" → k ≠ "experiment_type" →
  k ≠ "const_alg" → k ≠ "heuristic" →
  with_fprob d hv ev f !! k = d !! k.
Proof. intros. unfold with_fprob. by simplify_map_eq. Qed.

Lemma norm_topo_fails h l d tv e :
  d !! "topo" = Some tv →
  (∀ l2, tv = PDict l2 → is_Some (<[l:=d]> h !! l2)) →
  topo_failure tv = Some e →
  fst (norm_topo h l d) = Raise e.
Proof.
  intros Ht Hd Hfail. unfold norm_topo. rewrite Ht.
  destruct tv as [| | | |t|vs|l2|]; cbn in Hfail; try discriminate Hfail;
    cbn [is_basestring]; try (injection Hfail as <-; reflexivity).
  - unfold getitem_outcome. cbn [py_getitem].
    destruct (seq_index vs 1) as [v|]; cbn.
    + destruct (is_basestring v); [discriminate|]. by injection Hfail as <-.
    + by injection Hfail as <-.
  - injection Hfail as <-. destruct (Hd l2 eq_refl) as [d2 Hd2].
    unfold getitem_outcome. cbn [py_getitem]. unfold bind, load. cbn. by rewrite Hd2.
Qed.

Lemma norm_topo_ok h l d tv t :
  d !! "topo" = Some tv →
  topo_name tv = Some t →
  norm_topo h l d = (Return tt, <["topo":=PStr t]> d).
Proof.
  intros Ht Hn. unfold norm_topo. rewrite Ht.
  destruct tv as [| | | |t'|vs| |]; try discriminate Hn; cbn [is_basestring].
  - injection Hn as ->. by rewrite insert_id.
  - cbn [topo_name] in Hn. unfold getitem_outcome. cbn [py_getitem].
    destruct (seq_index vs 1) as [[| | | |t'| | |]|]; try discriminate Hn.
    by injection Hn as ->.
Qed.

(** X2. Once the three renamed keys are in order, a [topo] that is missing
    raises KeyError, and one that does not reduce to a string raises as
    [topo_failure] says: IndexError for a sequence with fewer than two
    elements, AssertionError for a second element that is not a string,
    TypeError for a number, boolean or null, KeyError for a dict. *)
Theorem X2_topo_failures l et st d hv ev f :
  st_heap st !! l = Some d →
  fprob_ready d hv ev f →
  (d !! "topo" = None → fst (extract_parameters l et st) = Raise (KeyError (PStr "topo")))
  ∧ (∀ tv e, d !! "topo" = Some tv →
        (∀ l2, tv = PDict l2 → is_Some (st_heap st !! l2)) →
        topo_failure tv = Some e →
        fst (extract_parameters l et st) = Raise e).
Proof.
  intros Hl Hready.
  destruct (extract_parameters_computes l et st d Hl) as (st' & Hrun & _).
  rewrite (normal_form_fprob _ _ _ _ _ _ _ Hready) in Hrun. rewrite Hrun. cbn [fst].
  split.
  - intros Ht. unfold norm_topo. by rewrite with_fprob_other, Ht.
  - intros tv e Ht Hd Hfail.
    assert (Hfst : fst (norm_topo (st_heap st) l (with_fprob d hv ev f)) = Raise e).
    { apply (norm_topo_fails _ _ _ tv); [by rewrite with_fprob_other| |done].
      intros l2 -> . destruct (decide (l2 = l)) as [->|].
      - rewrite lookup_insert_eq. by eexists.
      - rewrite lookup_insert_ne by done. by apply Hd. }
    destruct (norm_topo (st_heap st) l (with_fprob d hv ev f)) as [[[]|e'] d4];
      cbn in Hfst; [discriminate|]. by injection Hfst as ->.
Qed.

Lemma raw_example_ready : fprob_ready raw_example (PStr "steiner") (PStr "mininet") quarter.
Proof.
  split_and!; [vm_compute; reflexivity..|].
  exists "uniform/0.25", "0.25". split_and!; vm_compute; reflexivity.
Qed.

Lemma raw_short_topo_ready :
  fprob_ready raw_short_topo (PStr "steiner") (PStr "mininet") quarter.
Proof.
  split_and!; [vm_compute; reflexivity..|].
  exists "uniform/0.25", "0.25". split_and!; vm_compute; reflexivity.
Qed.

(** X2 at work: a [topo] list with the reader only. *)
Lemma X2_witness :
  fst (extract_parameters 1%positive (PStr "mininet") (at_cell raw_short_topo))
  = Raise IndexError.
Proof.
  destruct (X2_topo_failures 1%positive (PStr "mininet") (at_cell raw_short_topo)
              raw_short_topo _ _ _ (at_cell_lookup _) raw_short_topo_ready) as [_ H].
  apply (H (PList [PStr "reader"])).
  - vm_compute; reflexivity.
  - intros l2 Hl2. discriminate Hl2.
  - reflexivity.
Defined.

Lemma renamed_other d hv ev f t k :
  k ≠ "topo" → k ≠ "fprob" → k ≠ "failure_model" → k ≠ "exp_type" →
  k ≠ "experiment_type" → k ≠ "const_alg" → k ≠ "heuristic" →
  renamed d hv ev f t !! k = d !! k.
Proof. intros. unfold renamed. by simplify_map_eq. Qed.

Lemma keep_value_Some v : v ≠ PNone → keep_value v = Some v.
Proof. by destruct v. Qed.

(** X3. A well-formed raw mapping is normalised under mininet: with the
    renamed keys in order, a [topo] that reduces to a string, a policy that
    is not null, and a numeric generator count that is either non-zero or
    accompanied by a non-null bandwidth, the call returns its argument and
    the dict holds [mininet_normal_form]. *)
Theorem X3_wellformed_mininet_normalised l et st d hv ev f tv t sp z :
  st_heap st !! l = Some d →
  fprob_ready d hv ev f →
  d !! "topo" = Some tv → topo_name tv = Some t →
  d !! "tree_choosing_heuristic" = Some sp → sp ≠ PNone →
  d !! "n_traffic_generators" = Some (PInt z) →
  (z = 0 → ∃ b, d !! "traffic_generator_bandwidth" = Some b ∧ b ≠ PNone) →
  eq_str (effective_type et st) "mininet" = true →
  ∃ st',
    extract_parameters l et st = (Return (PDict l), st')
    ∧ st_heap st' = <[l:=mininet_normal_form d hv ev f t sp z]> (st_heap st)
    ∧ frame st st'.
Proof.
  intros Hl Hready Htv Htn Hsp Hspn Hn Hb Het.
  destruct (extract_parameters_computes l et st d Hl) as (st' & Hrun & Hheap & Hfr & _).
  rewrite (normal_form_fprob _ _ _ _ _ _ _ Hready) in Hrun, Hheap.
  rewrite (norm_topo_ok _ _ _ tv t) in Hrun, Hheap
    by (try rewrite with_fprob_other; done).
  change (<["topo":=PStr t]> (with_fprob d hv ev f)) with (renamed d hv ev f t)
    in Hrun, Hheap.
  unfold norm_dispatch in Hrun, Hheap. rewrite Het in Hrun, Hheap.
  set (d5 := drop_nulls (renamed d hv ev f t)) in *.
  assert (H5sp : d5 !! "tree_choosing_heuristic" = Some sp).
  { subst d5. rewrite lookup_drop_nulls, renamed_other, Hsp by done. cbn.
    by apply keep_value_Some. }
  assert (H6n : with_select_policy d5 sp !! "n_traffic_generators" = Some (PInt z)).
  { unfold with_select_policy. rewrite lookup_insert_ne, lookup_delete_ne by done.
    subst d5. by rewrite lookup_drop_nulls, renamed_other, Hn. }
  assert (Htr : truthy (<[l:=with_select_policy d5 sp]> (st_heap st))
                  (default PNone (with_select_policy d5 sp !! "n_traffic_generators"))
                = negb (z =? 0)) by (by rewrite H6n).
  rewrite H5sp in Hrun, Hheap. rewrite Htr, H6n in Hrun, Hheap.
  exists st'. unfold mininet_normal_form. fold d5.
  destruct (z =? 0) eqn:Hz; cbn [negb fst snd returned] in Hrun, Hheap; [|by split_and!].
  apply Z.eqb_eq in Hz. destruct (Hb Hz) as (b & Hbw & Hbn).
  assert (H7b : delete "n_traffic_generators" (with_select_policy d5 sp)
                !! "traffic_generator_bandwidth" = Some b).
  { unfold with_select_policy.
    rewrite lookup_delete_ne, lookup_insert_ne, lookup_delete_ne by done.
    subst d5. rewrite lookup_drop_nulls, renamed_other, Hbw by done. cbn.
    by apply keep_value_Some. }
  rewrite H7b in Hrun, Hheap. cbn [fst snd returned] in Hrun, Hheap. by split_and!.
Qed.

(** X3 at work on the mapping with both traffic keys: the result is the
    mapping the spec's example expects. *)
Lemma X3_witness :
  ∃ st',
    extract_parameters 1%positive (PStr "mininet") (at_cell raw_both_traffic)
    = (Return (PDict 1%positive), st')
    ∧ st_heap st' !! 1%positive
      = Some (mininet_normal_form raw_both_traffic (PStr "steiner") (PStr "mininet") quarter
                "campus.json" (PStr "max-reachable") 0).
Proof.
  destruct (X3_wellformed_mininet_normalised 1%positive (PStr "mininet")
              (at_cell raw_both_traffic) raw_both_traffic (PStr "steiner") (PStr "mininet")
              quarter (PList [PStr "reader"; PStr "campus.json"]) "campus.json"
              (PStr "max-reachable") 0) as (st' & Hrun & Hheap & _).
  - apply at_cell_lookup.
  - split_and!; [vm_compute; reflexivity..|].
    exists "uniform/0.25", "0.25". split_and!; vm_compute; reflexivity.
  - vm_compute; reflexivity.
  - reflexivity.
  - vm_compute; reflexivity.
  - discriminate.
  - vm_compute; reflexivity.
  - intros _. exists (PInt 10). split; [vm_compute; reflexivity|discriminate].
  - reflexivity.
  - exists st'. split; [exact Hrun|]. rewrite Hheap. apply lookup_insert_eq.
Defined.

(** What the dict holds after a successful normalisation, key by key. *)
Lemma normalised_lookup l et st d v st' :
  st_heap st !! l = Some d →
  extract_parameters l et st = (Return v, st') →
  ∃ hv ev f tv t sp d5 d',
    st_heap st' !! l = Some d'
    ∧ d !! "heuristic" = Some hv ∧ d !! "experiment_type" = Some ev
    ∧ d !! "topo" = Some tv ∧ topo_name tv = Some t
    ∧ d5 = drop_nulls (renamed d hv ev f t)
    ∧ d5 !! "tree_choosing_heuristic" = Some sp
    ∧ ((n_traffic_truthy l st (with_select_policy d5 sp) = true
        ∧ d' = with_select_policy d5 sp)
       ∨ (n_traffic_truthy l st (with_select_policy d5 sp) = false
          ∧ d' = without_traffic (with_select_policy d5 sp))).
Proof.
  intros Hl H.
  apply (extract_parameters_Return l et st v st' d Hl) in H
    as (_ & _ & _ & hv & ev & s & c & f & tv & t & sp & d5 & d' & Hh & He & _ & _ & _ & Htv
        & Htn & Hd5 & Hsp & Hcase & Hheap).
  exists hv, ev, f, tv, t, sp, d5, d'.
  split_and!; try done; [by rewrite Hheap, lookup_insert_eq|].
  destruct Hcase as [[? ?]|(? & _ & _ & ?)]; [by left|by right].
Qed.

(** X4. On success the renames carry the values over: [const_alg],
    [exp_type] and [select_policy] hold what [heuristic], [experiment_type]
    and [tree_choosing_heuristic] held (a null one is dropped), [topo] holds
    the file name as a string, and the four old names are gone. *)
Theorem X4_renames_carry_values l et st d v st' d' :
  st_heap st !! l = Some d →
  extract_parameters l et st = (Return v, st') →
  st_heap st' !! l = Some d' →
  d' !! "const_alg" = d !! "heuristic" ≫= keep_value
  ∧ d' !! "exp_type" = d !! "experiment_type" ≫= keep_value
  ∧ d' !! "select_policy" = d !! "tree_choosing_heuristic"
  ∧ (∃ tv t, d !! "topo" = Some tv ∧ topo_name tv = Some t ∧ d' !! "topo" = Some (PStr t))
  ∧ d' !! "heuristic" = None ∧ d' !! "experiment_type" = None
  ∧ d' !! "failure_model" = None ∧ d' !! "tree_choosing_heuristic" = None.
Proof.
  intros Hl H Hd'.
  destruct (normalised_lookup l et st d v st' Hl H)
    as (hv & ev & f & tv & t & sp & d5 & d'' & Hd'' & Hh & He & Htv & Htn & Hd5 & Hsp & Hcase).
  rewrite Hd' in Hd''. injection Hd'' as <-.
  assert (Hsp' : d !! "tree_choosing_heuristic" = Some sp).
  { rewrite Hd5, lookup_drop_nulls, renamed_other in Hsp by done.
    destruct (d !! "tree_choosing_heuristic") as [[]|]; cbn in Hsp; congruence. }
  assert (H5 : d5 !! "const_alg" = keep_value hv ∧ d5 !! "exp_type" = keep_value ev
               ∧ d5 !! "topo" = Some (PStr t)
               ∧ d5 !! "heuristic" = None ∧ d5 !! "experiment_type" = None
               ∧ d5 !! "failure_model" = None).
  { rewrite Hd5, !lookup_drop_nulls. unfold renamed. by simplify_map_eq. }
  destruct H5 as (H5a & H5b & H5c & H5d & H5e & H5f).
  rewrite Hh, He, Hsp'. cbn.
  destruct Hcase as [[_ ->]|[_ ->]]; unfold without_traffic, with_select_policy;
    (split_and!; [by simplify_map_eq|by simplify_map_eq|by simplify_map_eq|
                  exists tv, t; by simplify_map_eq|by simplify_map_eq..]).
Qed.

(** X5. On success every parameter the normaliser does not know by name
    passes through unchanged, unless it is null, in which case it is
    dropped. *)
Theorem X5_other_parameters_pass_through l et st d v st' d' k :
  st_heap st !! l = Some d →
  extract_parameters l et st = (Return v, st') →
  st_heap st' !! l = Some d' →
  k ∉ normaliser_keys →
  d' !! k = d !! k ≫= keep_value.
Proof.
  intros Hl H Hd' Hk.
  destruct (normalised_lookup l et st d v st' Hl H)
    as (hv & ev & f & tv & t & sp & d5 & d'' & Hd'' & _ & _ & _ & _ & Hd5 & _ & Hcase).
  rewrite Hd' in Hd''. injection Hd'' as <-.
  unfold normaliser_keys in Hk. repeat apply not_elem_of_cons in Hk as [? Hk].
  assert (Hd5k : d5 !! k = d !! k ≫= keep_value).
  { by rewrite Hd5, lookup_drop_nulls, renamed_other. }
  destruct Hcase as [[_ ->]|[_ ->]]; unfold without_traffic, with_select_policy;
    by simplify_map_eq.
Qed.

(** X6. On success with a numeric generator count: a non-zero count stays,
    and so does the bandwidth unless it is null or absent; a zero count
    goes, and the bandwidth with it. *)
Theorem X6_traffic_keys_follow_count l et st d v st' d' z :
  st_heap st !! l = Some d →
  extract_parameters l et st = (Return v, st') →
  st_heap st' !! l = Some d' →
  d !! "n_traffic_generators" = Some (PInt z) →
  if z =? 0
  then d' !! "n_traffic_generators" = None ∧ d' !! "traffic_generator_bandwidth" = None
  else d' !! "n_traffic_generators" = Some (PInt z)
       ∧ d' !! "traffic_generator_bandwidth"
         = d !! "traffic_generator_bandwidth" ≫= keep_value.
Proof.
  intros Hl H Hd' Hn.
  destruct (normalised_lookup l et st d v st' Hl H)
    as (hv & ev & f & tv & t & sp & d5 & d'' & Hd'' & _ & _ & _ & _ & Hd5 & _ & Hcase).
  rewrite Hd' in Hd''. injection Hd'' as <-.
  assert (H5n : d5 !! "n_traffic_generators" = Some (PInt z)).
  { by rewrite Hd5, lookup_drop_nulls, renamed_other, Hn. }
  assert (H5b : d5 !! "traffic_generator_bandwidth"
                = d !! "traffic_generator_bandwidth" ≫= keep_value).
  { by rewrite Hd5, lookup_drop_nulls, renamed_other. }
  assert (Htr : n_traffic_truthy l st (with_select_policy d5 sp) = negb (z =? 0)).
  { unfold n_traffic_truthy, with_select_policy.
    rewrite lookup_insert_ne, lookup_delete_ne, H5n by done. reflexivity. }
  rewrite Htr in Hcase.
  destruct (z =? 0); cbn [negb] in Hcase;
    destruct Hcase as [[Hb ->]|[Hb ->]]; try discriminate Hb;
    unfold without_traffic, with_select_policy; by simplify_map_eq.
Qed.

(** X7. Normalisation cannot be repeated: a second call on the dict a
    successful call returned raises KeyError for [heuristic], whatever the
    experiment type, and leaves everything as it is. *)
Theorem X7_second_call_raises l et st d v st' et' :
  st_heap st !! l = Some d →
  extract_parameters l et st = (Return v, st') →
  ∃ l', v = PDict l'
        ∧ extract_parameters l' et' st' = (Raise (KeyError (PStr "heuristic")), st').
Proof.
  intros Hl H.
  pose proof (extract_parameters_Return l et st v st' d Hl H) as (-> & _).
  destruct (normalised_lookup l et st d (PDict l) st' Hl H)
    as (hv & ev & f & tv & t & sp & d5 & d' & Hd' & _ & _ & _ & _ & Hd5 & _ & Hcase).
  exists l. split; [done|].
  apply (extract_parameters_no_heuristic l et' st' d' Hd').
  assert (H5 : d5 !! "heuristic" = None).
  { rewrite Hd5, lookup_drop_nulls. unfold renamed. by simplify_map_eq. }
  destruct Hcase as [[_ ->]|[_ ->]]; unfold without_traffic, with_select_policy;
    by simplify_map_eq.
Qed.

(** Two successful runs used below. *)
Lemma both_traffic_run :
  ∃ st' d',
    extract_parameters 1%positive (PStr "mininet") (at_cell raw_both_traffic)
    = (Return (PDict 1%positive), st')
    ∧ st_heap st' !! 1%positive = Some d'.
Proof. eexists _, _. split; vm_compute; reflexivity. Qed.

Lemma two_generators_run :
  ∃ st' d',
    extract_parameters 1%positive (PStr "mininet") (at_cell raw_two_generators)
    = (Return (PDict 1%positive), st')
    ∧ st_heap st' !! 1%positive = Some d'.
Proof. eexists _, _. split; vm_compute; reflexivity. Qed.

(** X4 at work on the mapping with both traffic keys. *)
Lemma X4_witness :
  ∃ st' (d' : dict),
    extract_parameters 1%positive (PStr "mininet") (at_cell raw_both_traffic)
    = (Return (PDict 1%positive), st')
    ∧ st_heap st' !! 1%positive = Some d'
    ∧ d' !! "const_alg" = raw_both_traffic !! "heuristic" ≫= keep_value
    ∧ d' !! "heuristic" = None.
Proof.
  destruct both_traffic_run as (st' & d' & Hrun & Hheap).
  exists st', d'. split; [exact Hrun|]. split; [exact Hheap|].
  destruct (X4_renames_carry_values 1%positive (PStr "mininet") (at_cell raw_both_traffic)
              raw_both_traffic (PDict 1%positive) st' d'
              (at_cell_lookup _) Hrun Hheap) as (H1 & _ & _ & _ & H2 & _).
  exact (conj H1 H2).
Defined.

Lemma publication_period_other : "publication_period" ∉ normaliser_keys.
Proof. apply (proj1 (bool_decide_eq_true _)). vm_compute. reflexivity. Qed.

(** X5 at work: [publication_period] is no concern of the normaliser. *)
Lemma X5_witness :
  ∃ st' (d' : dict),
    extract_parameters 1%positive (PStr "mininet") (at_cell raw_two_generators)
    = (Return (PDict 1%positive), st')
    ∧ st_heap st' !! 1%positive = Some d'
    ∧ d' !! "publication_period"
      = raw_two_generators !! "publication_period" ≫= keep_value.
Proof.
  destruct two_generators_run as (st' & d' & Hrun & Hheap).
  exists st', d'. split; [exact Hrun|]. split; [exact Hheap|].
  apply (X5_other_parameters_pass_through 1%positive (PStr "mininet")
           (at_cell raw_two_generators) raw_two_generators (PDict 1%positive) st' d'
           "publication_period" (at_cell_lookup _) Hrun Hheap).
  exact publication_period_other.
Defined.

(** X6 at work with two generators: both traffic keys stay. *)
Lemma X6_witness :
  ∃ st' (d' : dict),
    extract_parameters 1%positive (PStr "mininet") (at_cell raw_two_generators)
    = (Return (PDict 1%positive), st')
    ∧ st_heap st' !! 1%positive = Some d'
    ∧ d' !! "n_traffic_generators" = Some (PInt 2)
    ∧ d' !! "traffic_generator_bandwidth"
      = raw_two_generators !! "traffic_generator_bandwidth" ≫= keep_value.
Proof.
  destruct two_generators_run as (st' & d' & Hrun & Hheap).
  exists st', d'. split; [exact Hrun|]. split; [exact Hheap|].
  apply (X6_traffic_keys_follow_count 1%positive (PStr "mininet")
           (at_cell raw_two_generators) raw_two_generators (PDict 1%positive) st' d' 2
           (at_cell_lookup _) Hrun Hheap).
  vm_compute; reflexivity.
Defined.

(** X7 at work: the worked mapping normalised twice. *)
Lemma X7_witness :
  ∃ st' l',
    extract_parameters 1%positive (PStr "mininet") (at_cell raw_both_traffic)
    = (Return (PDict l'), st')
    ∧ extract_parameters l' PNone st' = (Raise (KeyError (PStr "heuristic")), st').
Proof.
  destruct both_traffic_run as (st' & d' & Hrun & Hheap).
  destruct (X7_second_call_raises 1%positive (PStr "mininet") (at_cell raw_both_traffic)
              raw_both_traffic (PDict 1%positive) st' PNone (at_cell_lookup _) Hrun)
    as (l' & Hv & Hsecond).
  exists st', l'. split; [|exact Hsecond].
  rewrite Hrun. by rewrite Hv.
Defined.

(** X8. An experiment type other than mininet fails only after the dict has
    been renamed and cleared of nulls: NotImplementedError for networkx, and
    for any other type [exit(1)] with the error record last in the log.
    The statistics objects are not touched. *)
Theorem X8_unsupported_type_fails_late l et st d hv ev f tv t :
  st_heap st !! l = Some d →
  fprob_ready d hv ev f →
  d !! "topo" = Some tv →
  topo_name tv = Some t →
  eq_str (effective_type et st) "mininet" = false →
  ∃ st',
    extract_parameters l et st
    = (Raise (if eq_str (effective_type et st) "networkx"
              then NotImplementedError "netx parsing not supported yet!"
              else SystemExit 1), st')
    ∧ st_heap st' !! l = Some (drop_nulls (renamed d hv ev f t))
    ∧ frame st st'
    ∧ (eq_str (effective_type et st) "networkx" = false →
       last (st_log st') = Some (unrecognized_record (effective_type et st))).
Proof.
  intros Hl (Hh & He & s & c & Hf & Hc & Hfl) Ht Hn Het.
  destruct (extract_parameters_unsupported l et st d hv ev s c f tv t
              Hl Hh He Hf Hc Hfl Ht Hn Het) as (st' & Hrun & Hheap & Hfr).
  exists st'. split_and!; [exact Hrun|by rewrite Hheap, lookup_insert_eq|exact Hfr|].
  intros Hnx.
  destruct (extract_parameters_computes l et st d Hl) as (st2 & Hrun2 & _ & _ & Hlog).
  rewrite Hrun, Hnx in Hrun2. injection Hrun2 as Hret <-.
  apply Hlog.
  destruct (fst (normal_form (st_heap st) l (effective_type et st) d)) as [[]|e];
    cbn in Hret; [discriminate|]. by injection Hret as <-.
Qed.

(** X8 at work on the worked example under a type the code does not know. *)
Lemma X8_witness :
  ∃ st',
    extract_parameters 1%positive (PStr "quantum") (at_cell raw_quantum)
    = (Raise (SystemExit 1), st')
    ∧ last (st_log st') = Some (unrecognized_record (PStr "quantum")).
Proof.
  destruct (X8_unsupported_type_fails_late 1%positive (PStr "quantum") (at_cell raw_quantum)
              raw_quantum (PStr "steiner") (PStr "quantum") quarter
              (PList [PStr "reader"; PStr "campus.json"]) "campus.json")
    as (st' & Hrun & _ & _ & Hlog).
  - apply at_cell_lookup.
  - split_and!; [vm_compute; reflexivity..|].
    exists "uniform/0.25", "0.25". split_and!; vm_compute; reflexivity.
  - vm_compute; reflexivity.
  - reflexivity.
  - reflexivity.
  - exists st'. split; [exact Hrun|]. by apply Hlog.
Defined.

(** X9. With [heuristic] and [experiment_type] present, a [failure_model]
    that is not a string raises AttributeError, a string with no second
    component raises IndexError, and a second component that is not a number
    raises ValueError; by then the three keys have been popped, the first two
    renamed, and no [fprob] has been written. *)
Theorem X9_failure_model_failures l et st d hv ev fm e :
  st_heap st !! l = Some d →
  d !! "heuristic" = Some hv →
  d !! "experiment_type" = Some ev →
  d !! "failure_model" = Some fm →
  failure_model_error fm = Some e →
  ∃ st',
    extract_parameters l et st = (Raise e, st')
    ∧ st_heap st' !! l = Some (popped d hv ev)
    ∧ popped d hv ev !! "failure_model" = None
    ∧ popped d hv ev !! "fprob" = d !! "fprob"
    ∧ frame st st'.
Proof.
  intros Hl Hh He Hf Hfail.
  destruct (extract_parameters_computes l et st d Hl) as (st' & Hrun & Hheap & Hfr & _).
  exists st'.
  assert (Hnf : normal_form (st_heap st) l (effective_type et st) d
                = (Raise e, popped d hv ev)).
  { unfold normal_form. rewrite Hh.
    rewrite lookup_insert_ne, lookup_delete_ne, He by done.
    rewrite lookup_insert_ne, lookup_delete_ne, lookup_insert_ne, lookup_delete_ne, Hf by done.
    unfold failure_model_error in Hfail.
    destruct fm as [| | | |s| | |]; try (by injection Hfail as <-).
    destruct (seq_index (PyStr.split PyStr.slash s) 1) as [c|];
      [|by injection Hfail as <-].
    destruct (PyFloat.of_string c); [discriminate Hfail|by injection Hfail as <-]. }
  rewrite Hnf in Hrun, Hheap. cbn [fst snd returned] in Hrun, Hheap.
  split_and!; [exact Hrun|by rewrite Hheap, lookup_insert_eq| | |exact Hfr];
    unfold popped; by simplify_map_eq.
Qed.

(** X9 at work on a failure model of one component. *)
Lemma X9_witness :
  ∃ st',
    extract_parameters 1%positive (PStr "mininet") (at_cell raw_no_slash)
    = (Raise IndexError, st')
    ∧ st_heap st' !! 1%positive
      = Some (popped raw_no_slash (PStr "steiner") (PStr "mininet")).
Proof.
  destruct (X9_failure_model_failures 1%positive (PStr "mininet") (at_cell raw_no_slash)
              raw_no_slash (PStr "steiner") (PStr "mininet") (PStr "uniform") IndexError)
    as (st' & Hrun & Hheap & _).
  - apply at_cell_lookup.
  - vm_compute; reflexivity.
  - vm_compute; reflexivity.
  - vm_compute; reflexivity.
  - vm_compute; reflexivity.
  - exists st'. exact (conj Hrun Hheap).
Defined.

(** ** Further properties of [extract_stats_from_results] *)

(** X10. An extraction that raises has done nothing to the statistics: the
    directories of all runs are resolved before the object is constructed or
    merged into, so a [results] value that cannot be iterated, a run without
    [outputs_dir] or with one that is not a string, and an unsupported
    experiment type all leave the instances, [self.stats], the store and the
    recorded experiment type as they were. *)
Theorem X10_failed_extraction_touches_nothing results filename et kw st e st' :
  aggregate_exists st →
  extract_stats_from_results results filename et kw st = (Raise e, st') →
  st_instances st' = st_instances st
  ∧ self_stats st' = self_stats st
  ∧ st_heap st' = st_heap st
  ∧ self_experiment_type st' = self_experiment_type st.
Proof.
  intros Hwf. unfold extract_stats_from_results. rewrite bind_effective.
  destruct (eq_str (effective_type et st) "mininet").
  2:{ destruct (eq_str (effective_type et st) "networkx"); by intros [= _ <-]. }
  set (st1 := match filename with
              | Some _ => st
              | None => add_log (Log WARNING no_filename_warning []) st
              end).
  assert (Hpre : ∀ B (K : string → M B),
            bind (match filename with
                  | None => log WARNING no_filename_warning [] ;; ret ""
                  | Some f => ret f
                  end) K st = K (default "" filename) st1).
  { intros B K. subst st1. by destruct filename. }
  rewrite Hpre.
  assert (Hsame : st_instances st1 = st_instances st ∧ self_stats st1 = self_stats st
                  ∧ st_heap st1 = st_heap st
                  ∧ self_experiment_type st1 = self_experiment_type st)
    by (subst st1; by destruct filename).
  assert (Hwf1 : aggregate_exists st1).
  { intros j. destruct Hsame as (-> & -> & _). apply Hwf. }
  clearbody st1. clear Hpre.
  unfold bind at 1.
  destruct (py_iter results st1) as [[runs|e1] st2] eqn:Hiter;
    apply readonly_py_iter in Hiter as ->; [|by intros [= _ <-]].
  unfold bind at 1.
  destruct (map_M (resolve_run (OsPath.dirname (default "" filename))) runs st1)
    as [[dirs|e1] st2] eqn:Hmap;
    apply (readonly_map_M _ _ (readonly_resolve_run _)) in Hmap as ->;
    [|by intros [= _ <-]].
  rewrite bind_get_state.
  destruct (self_stats st1) as [i|] eqn:Hi.
  - destruct (Hwf1 i Hi) as [calls Hcalls].
    unfold bind, stats_parse_all, get_state, ret. rewrite Hcalls. cbn. rewrite Hi.
    discriminate.
  - unfold bind, MininetSeismicStatistics, modify, stats_parse_all, get_state, ret. cbn.
    rewrite lookup_length_snoc. cbn. discriminate.
Qed.

Lemma broken_runs_aggregate : aggregate_exists broken_runs_state.
Proof. intros j H. discriminate H. Qed.

(** X10 at work on two runs of which the second has no [outputs_dir]. *)
Lemma X10_witness :
  ∃ st',
    extract_stats_from_results (PList [PDict 2%positive; PDict 3%positive])
      (Some "exp/results.json") (PStr "mininet") example_kwargs broken_runs_state
    = (Raise (KeyError (PStr "outputs_dir")), st')
    ∧ st_instances st' = [] ∧ self_stats st' = None.
Proof.
  assert (Hrun : ∃ st',
             extract_stats_from_results (PList [PDict 2%positive; PDict 3%positive])
               (Some "exp/results.json") (PStr "mininet") example_kwargs broken_runs_state
             = (Raise (KeyError (PStr "outputs_dir")), st'))
    by (eexists; vm_compute; reflexivity).
  destruct Hrun as [st' Hrun]. exists st'. split; [exact Hrun|].
  destruct (X10_failed_extraction_touches_nothing _ _ _ _ _ _ _
              broken_runs_aggregate Hrun) as (Hi & Hs & _).
  split; [exact Hi|exact Hs].
Defined.

(** ** From normalisation to extraction: the call made by [parse_file] *)

Lemma bind_Return_inv {A B} (m : M A) (k : A → M B) st v st' :
  bind m k st = (Return v, st') →
  ∃ a st1, m st = (Return a, st1) ∧ k a st1 = (Return v, st').
Proof.
  unfold bind. destruct (m st) as [[a|e] st1]; [|discriminate].
  intros H. by exists a, st1.
Qed.

Lemma extract_parameters_needs_dict l et st v st' :
  extract_parameters l et st = (Return v, st') → is_Some (st_heap st !! l).
Proof.
  destruct (st_heap st !! l) as [d|] eqn:Hl; [by eexists|].
  unfold extract_parameters. rewrite bind_effective.
  unfold dict_pop, bind, load. by rewrite Hl.
Qed.

(** X11. A parameter of the document called [self], [results] or
    [filename], unless null, survives normalisation and then collides with
    an argument [parse_file] passes itself: the call of
    [extract_stats_from_results] raises TypeError before its body runs, and
    the state stays as normalisation left it. *)
Theorem X11_parameter_collides_with_argument l et st d k v p st' results fname :
  st_heap st !! l = Some d →
  k ∈ bound_arguments →
  d !! k = Some v →
  v ≠ PNone →
  extract_parameters l et st = (Return p, st') →
  call_extract_stats results fname p st' = (Raise TypeError, st').
Proof.
  intros Hl Hk Hv Hnn H.
  pose proof (extract_parameters_Return l et st p st' d Hl H) as (-> & _).
  destruct (normalised_lookup l et st d (PDict l) st' Hl H)
    as (hv & ev & f & tv & t & sp & d5 & d' & Hd' & _ & _ & _ & _ & Hd5 & _ & Hcase).
  assert (Hk' : d' !! k = Some v).
  { assert (H5 : d5 !! k = Some v).
    { rewrite Hd5, lookup_drop_nulls.
      unfold bound_arguments in Hk. rewrite !elem_of_cons, elem_of_nil in Hk.
      destruct Hk as [->|[->|[->|[]]]]; rewrite renamed_other, Hv by done;
        by apply keep_value_Some. }
    unfold bound_arguments in Hk. rewrite !elem_of_cons, elem_of_nil in Hk.
    destruct Hcase as [[_ ->]|[_ ->]]; unfold without_traffic, with_select_policy;
      destruct Hk as [->|[->|[->|[]]]]; by simplify_map_eq. }
  unfold call_extract_stats. rewrite (bind_load l d') by done.
  unfold bound_arguments in Hk. rewrite !elem_of_cons, elem_of_nil in Hk.
  destruct Hk as [->|[->|[->|[]]]]; rewrite Hk'.
  - rewrite bool_decide_eq_true_2 by by eexists. reflexivity.
  - rewrite (bool_decide_eq_true_2 (is_Some (Some v))) by by eexists.
    by rewrite orb_true_r.
  - rewrite (bool_decide_eq_true_2 (is_Some (Some v))) by by eexists.
    by rewrite orb_true_r.
Qed.

(** X11 at work on the worked mapping with a [filename] parameter. *)
Lemma X11_witness :
  ∃ p st',
    extract_parameters 1%positive (PStr "mininet") (at_cell raw_with_filename)
    = (Return p, st')
    ∧ call_extract_stats (PList []) "exp/results.json" p st' = (Raise TypeError, st').
Proof.
  assert (Hrun : ∃ st',
             extract_parameters 1%positive (PStr "mininet") (at_cell raw_with_filename)
             = (Return (PDict 1%positive), st'))
    by (eexists; vm_compute; reflexivity).
  destruct Hrun as [st' Hrun]. exists (PDict 1%positive), st'. split; [exact Hrun|].
  apply (X11_parameter_collides_with_argument 1%positive (PStr "mininet")
           (at_cell raw_with_filename) raw_with_filename "filename" (PStr "trace.json")
           (PDict 1%positive) st' (PList []) "exp/results.json").
  - apply at_cell_lookup.
  - unfold bound_arguments. rewrite !elem_of_cons. by right; right; left.
  - vm_compute; reflexivity.
  - discriminate.
  - exact Hrun.
Defined.

(** X12. When no parameter collides, the whole normalised mapping becomes
    the keyword arguments of the aggregator call: the key [experiment_type]
    has been renamed away, so the type argument is never bound by the
    mapping and the method falls back on [self.experiment_type]. *)
Theorem X12_whole_mapping_handed_over l et st d p st' results fname :
  st_heap st !! l = Some d →
  (∀ k, k ∈ bound_arguments → d !! k ≫= keep_value = None) →
  extract_parameters l et st = (Return p, st') →
  ∃ d', st_heap st' !! l = Some d'
        ∧ d' !! "experiment_type" = None
        ∧ call_extract_stats results fname p st'
          = extract_stats_from_results results (Some fname) PNone d' st'.
Proof.
  intros Hl Hfree H.
  pose proof (extract_parameters_Return l et st p st' d Hl H) as (-> & _).
  destruct (normalised_lookup l et st d (PDict l) st' Hl H)
    as (hv & ev & f & tv & t & sp & d5 & d' & Hd' & _ & _ & _ & _ & Hd5 & _ & Hcase).
  exists d'.
  assert (Hfree' : ∀ k, k ∈ bound_arguments → d' !! k = None).
  { intros k Hk. pose proof (Hfree k Hk) as Hnone.
    assert (H5 : d5 !! k = None).
    { rewrite Hd5, lookup_drop_nulls.
      unfold bound_arguments in Hk. rewrite !elem_of_cons, elem_of_nil in Hk.
      destruct Hk as [->|[->|[->|[]]]]; by rewrite renamed_other. }
    unfold bound_arguments in Hk. rewrite !elem_of_cons, elem_of_nil in Hk.
    destruct Hcase as [[_ ->]|[_ ->]]; unfold without_traffic, with_select_policy;
      destruct Hk as [->|[->|[->|[]]]]; by simplify_map_eq. }
  assert (Het : d' !! "experiment_type" = None).
  { assert (H5 : d5 !! "experiment_type" = None).
    { rewrite Hd5, lookup_drop_nulls. unfold renamed. by simplify_map_eq. }
    destruct Hcase as [[_ ->]|[_ ->]]; unfold without_traffic, with_select_policy;
      by simplify_map_eq. }
  split_and!; [done|done|].
  unfold call_extract_stats. rewrite (bind_load l d') by done.
  rewrite !Hfree' by (unfold bound_arguments; rewrite !elem_of_cons; auto).
  rewrite Het, (bool_decide_eq_false_2 (is_Some None)) by by intros [? ?].
  cbn [orb default]. by rewrite delete_id.
Qed.

(** X12 at work on the worked mapping. *)
Lemma X12_witness :
  ∃ p st' d',
    extract_parameters 1%positive (PStr "mininet") (at_cell raw_both_traffic)
    = (Return p, st')
    ∧ call_extract_stats (PList []) "exp/results.json" p st'
      = extract_stats_from_results (PList []) (Some "exp/results.json") PNone d' st'.
Proof.
  destruct both_traffic_run as (st' & d0 & Hrun & _).
  destruct (X12_whole_mapping_handed_over 1%positive (PStr "mininet")
              (at_cell raw_both_traffic) raw_both_traffic (PDict 1%positive) st'
              (PList []) "exp/results.json" (at_cell_lookup _)) as (d' & _ & _ & Hcall).
  - intros k Hk. unfold bound_arguments in Hk. rewrite !elem_of_cons, elem_of_nil in Hk.
    destruct Hk as [->|[->|[->|[]]]]; vm_compute; reflexivity.
  - exact Hrun.
  - exists (PDict 1%positive), st', d'. exact (conj Hrun Hcall).
Defined.

(** ** The loops of [parse_all] and [parse_dir] *)

Lemma for_each_app {A} (body : A → M unit) xs ys st :
  for_each body (xs ++ ys)%list st = (for_each body xs ;; for_each body ys) st.
Proof.
  revert st. induction xs as [|x xs IH]; intros st; [done|].
  cbn [for_each app]. unfold bind.
  destruct (body x st) as [[[]|e] st1]; [|done]. rewrite IH. reflexivity.
Qed.

Lemma for_each_aborts {A} (body : A → M unit) xs x ys st st1 e st2 :
  for_each body xs st = (Return tt, st1) →
  body x st1 = (Raise e, st2) →
  for_each body (xs ++ x :: ys)%list st = (Raise e, st2).
Proof.
  intros Hxs Hx. rewrite for_each_app. unfold bind at 1. rewrite Hxs.
  cbn [for_each]. unfold bind. by rewrite Hx.
Qed.

Lemma for_each_entries fs dirname names st :
  for_each (parse_entry fs dirname) names st
  = parse_all fs None (eligible fs dirname names) st.
Proof.
  revert st. induction names as [|name names IH]; intros st; [done|].
  cbn [for_each]. unfold parse_entry at 1. unfold eligible. cbn [map List.filter].
  fold (eligible fs dirname names).
  destruct (PyStr.endswith ".progress" (OsPath.join dirname name)); cbn [negb orb andb].
  - rewrite bind_ret. apply IH.
  - destruct (isfile fs (OsPath.join dirname name)); cbn [negb].
    + cbn [parse_all for_each]. unfold bind at 1 3.
      destruct ((parse_file fs (OsPath.join dirname name) ;; ret tt) st) as [[[]|e] st1];
        [apply IH|done].
    + rewrite bind_ret. apply IH.
Qed.

Lemma parse_dir_as_files fs dirname st :
  let st1 := add_log (Log DEBUG "parsing dir: %s" [PStr dirname]) st in
  match listdir fs dirname with
  | Some names => parse_dir fs dirname st = parse_all fs None (eligible fs dirname names) st1
  | None => parse_dir fs dirname st = (Raise OSError, st1)
  end.
Proof.
  intros st1. unfold parse_dir. rewrite bind_log. fold st1.
  destruct (listdir fs dirname) as [names|]; [apply for_each_entries|done].
Qed.

(** X13. Directory mode is file mode over the listing: after its one log
    record, [parse_dir] does what [parse_all] does in file mode on the
    entries joined to the directory name, taken in listing order, without
    those ending in [.progress] and those that are not files; a directory
    that cannot be listed raises OSError after the log record. *)
Theorem X13_directory_as_files fs dirname st :
  let st1 := add_log (Log DEBUG "parsing dir: %s" [PStr dirname]) st in
  match listdir fs dirname with
  | Some names => parse_dir fs dirname st = parse_all fs None (eligible fs dirname names) st1
  | None => parse_dir fs dirname st = (Raise OSError, st1)
  end.
Proof. apply parse_dir_as_files. Qed.

(** X14. The first exception ends the run, in both modes: when the files
    (directories) before one have been parsed and that one raises,
    [parse_all] raises the same exception in the state reached there, and
    what comes after it in the list has no part in the outcome. *)
Theorem X14_first_failure_aborts fs :
  (∀ xs x ys st st1 e st2,
     parse_all fs None xs st = (Return tt, st1) →
     parse_file fs x st1 = (Raise e, st2) →
     parse_all fs None (xs ++ x :: ys)%list st = (Raise e, st2))
  ∧ (∀ ds d ds' files st st1 e st2,
       parse_all fs (Some ds) files st = (Return tt, st1) →
       parse_dir fs d st1 = (Raise e, st2) →
       parse_all fs (Some (ds ++ d :: ds')%list) files st = (Raise e, st2)).
Proof.
  split.
  - intros xs x ys st st1 e st2 Hxs Hx. cbn [parse_all] in *.
    apply (for_each_aborts _ _ _ _ _ st1); [exact Hxs|].
    unfold bind. by rewrite Hx.
  - intros ds d ds' files st st1 e st2 Hds Hd. cbn [parse_all] in *.
    by apply (for_each_aborts _ _ _ _ _ st1).
Qed.

Lemma skipped_then_legacy :
  let st1 := skipped "exp/notes.txt" "No JSON object could be decoded" init in
  parse_all example_fs None ["exp/notes.txt"] init = (Return tt, st1)
  ∧ ∃ st2, parse_file example_fs "legacy.json" st1
           = (Raise (KeyError (PStr "experiment_type")), st2).
Proof. split; [vm_compute; reflexivity|]. eexists. vm_compute. reflexivity. Qed.

(** X14 at work: the legacy document after a skipped file ends the run;
    the result file after it is not parsed. *)
Lemma X14_witness :
  ∃ st2,
    parse_all example_fs None (["exp/notes.txt"] ++ "legacy.json" :: ["exp/results.json"])%list
      init
    = (Raise (KeyError (PStr "experiment_type")), st2).
Proof.
  destruct skipped_then_legacy as (Hxs & st2 & Hx).
  exists st2.
  exact (proj1 (X14_first_failure_aborts example_fs) _ _ _ _ _ _ _ Hxs Hx).
Defined.

Lemma parse_file_content fs fs' fname :
  content fs' fname = content fs fname →
  parse_file fs' fname = parse_file fs fname.
Proof. intros H. unfold parse_file. by rewrite H. Qed.

Lemma eligible_read fs dirname names f :
  f ∈ eligible fs dirname names →
  PyStr.endswith ".progress" f = false ∧ isfile fs f = true.
Proof.
  unfold eligible. rewrite list_elem_of_In, filter_In.
  intros [_ H]. apply andb_prop in H as [H1 H2]. split; [|done].
  by destruct (PyStr.endswith ".progress" f).
Qed.

Lemma files_mode_content fs fs' files st :
  (∀ f, f ∈ files → content fs' f = content fs f) →
  parse_all fs' None files st = parse_all fs None files st.
Proof.
  revert st. induction files as [|f files IH]; intros st Hc; [done|].
  cbn [parse_all for_each]. rewrite (parse_file_content fs fs') by (apply Hc; left).
  unfold bind. destruct (parse_file fs f st) as [[v|e] st1]; [|done].
  cbn [ret]. apply (IH st1). intros f' Hf'. apply Hc. by right.
Qed.

(** X15. What is inside an entry that [parse_dir] passes over never
    matters: two file systems with the same listings and the same files,
    whose contents agree outside the entries ending in [.progress] and the
    entries that are not files, give the same directory-mode run, outcome
    and final state alike. *)
Theorem X15_unread_entries_do_not_matter fs fs' ds files st :
  same_but_unread fs fs' →
  parse_all fs' (Some ds) files st = parse_all fs (Some ds) files st.
Proof.
  intros (Hl & Hf & Hc). cbn [parse_all].
  revert st. induction ds as [|d ds IH]; intros st; [done|].
  cbn [for_each].
  assert (Hd : parse_dir fs' d st = parse_dir fs d st).
  { pose proof (parse_dir_as_files fs d st) as H.
    pose proof (parse_dir_as_files fs' d st) as H'.
    rewrite Hl in H'. destruct (listdir fs d) as [names|]; [|congruence].
    rewrite H, H'.
    assert (He : eligible fs' d names = eligible fs d names).
    { unfold eligible. apply filter_ext. intros f. by rewrite Hf. }
    rewrite He. apply files_mode_content. intros f Hin.
    apply eligible_read in Hin as [? ?]. by apply Hc. }
  unfold bind. rewrite Hd. destruct (parse_dir fs d st) as [[[]|e] st1]; [apply IH|done].
Qed.

Lemma completed_same_but_unread : same_but_unread example_fs example_fs_completed.
Proof.
  split_and!; [done|done|]. intros f Hp _. cbn [content example_fs_completed].
  destruct (String.eqb f "exp/partial.progress") eqn:E; [|done].
  apply String.eqb_eq in E as ->. discriminate Hp.
Qed.

(** X15 at work: whether the in-progress file holds a fragment or a whole
    document, the run over the directory is the same. *)
Lemma X15_witness :
  parse_all example_fs_completed (Some ["exp"]) [] init
  = parse_all example_fs (Some ["exp"]) [] init.
Proof.
  apply (X15_unread_entries_do_not_matter example_fs example_fs_completed ["exp"] [] init).
  exact completed_same_but_unread.
Defined.

(** ** The experiment type recorded by [parse_file] *)

Lemma type_blind_forgotten {A} (m : M A) : type_blind m → type_forgotten m.
Proof.
  intros Hm v st. destruct (Hm v st) as [-> Ht]. cbn [fst snd].
  split; [done|]. by right.
Qed.

Lemma type_forgotten_bind {A B} (m : M A) (k : A → M B) :
  type_blind m → (∀ a, type_forgotten (k a)) → type_forgotten (bind m k).
Proof.
  intros Hm Hk v st. unfold bind. destruct (Hm v st) as [-> Ht].
  destruct (m st) as [[a|e] st1]; cbn [fst snd] in *.
  - destruct (Hk a v st1) as [Hf Hs]. split; [done|].
    destruct Hs as [Hs|[Hs Hty]]; [by left|right]. split; [done|congruence].
  - split; [done|]. by right.
Qed.

Lemma type_blind_log lv fmt args : type_blind (log lv fmt args).
Proof. by intros v st. Qed.

Lemma type_blind_json_load doc : type_blind (json_load doc).
Proof.
  intros v st. unfold json_load. cbn [st_heap set_experiment_type].
  by destruct (json_decode doc (st_heap st)) as [x h].
Qed.

Lemma type_blind_py_getitem o k : type_blind (py_getitem o k).
Proof. intros v st. by rewrite !py_getitem_outcome. Qed.

Lemma type_blind_py_get o k dflt : type_blind (py_get o k dflt).
Proof.
  intros v st. destruct o; try done. cbn [py_get]. unfold dict_get, bind, load.
  cbn [st_heap set_experiment_type]. by destruct (st_heap st !! l).
Qed.

Lemma type_forgotten_assigned {B} et (K : M B) :
  type_forgotten (modify (set_experiment_type et) ;; K).
Proof. intros v st. split; [done|by left]. Qed.

(** X16. The experiment type recorded from an earlier file has no part in
    how the next one is parsed: [parse_file] started with any other recorded
    type ends in the same way, and in the same state unless it ended before
    the document's own type was recorded (a skipped or unreadable file, a
    document without a usable [params]), in which case the recorded type is
    all that differs. *)
Theorem X16_recorded_type_has_no_influence fs fname :
  type_forgotten (parse_file fs fname).
Proof.
  unfold parse_file.
  apply type_forgotten_bind; [apply type_blind_log|]. intros _.
  destruct (content fs fname) as [[err|doc]|].
  - apply type_forgotten_bind; [apply type_blind_log|]. intros _.
    apply type_blind_forgotten. by intros v st.
  - apply type_forgotten_bind; [apply type_blind_json_load|]. intros data.
    apply type_forgotten_bind; [apply type_blind_py_getitem|]. intros params.
    apply type_forgotten_bind; [apply type_blind_py_getitem|]. intros results.
    apply type_forgotten_bind; [apply type_blind_py_getitem|]. intros p.
    apply type_forgotten_bind; [apply type_blind_py_get|]. intros et.
    apply type_forgotten_assigned.
  - apply type_blind_forgotten. by intros v st.
Qed.

(** ** What [parse_file] returns *)

Lemma eq_str_true v s : eq_str v s = true → v = PStr s.
Proof. destruct v; try discriminate. cbn. by intros ->%String.eqb_eq. Qed.

Lemma extract_stats_type results filename et kw st r st' :
  extract_stats_from_results results filename et kw st = (r, st') →
  self_experiment_type st' = self_experiment_type st.
Proof.
  unfold extract_stats_from_results. rewrite bind_effective.
  destruct (eq_str (effective_type et st) "mininet").
  2:{ destruct (eq_str (effective_type et st) "networkx"); by intros [= _ <-]. }
  set (st1 := match filename with
              | Some _ => st
              | None => add_log (Log WARNING no_filename_warning []) st
              end).
  assert (Hpre : ∀ B (K : string → M B),
            bind (match filename with
                  | None => log WARNING no_filename_warning [] ;; ret ""
                  | Some f => ret f
                  end) K st = K (default "" filename) st1).
  { intros B K. subst st1. by destruct filename. }
  rewrite Hpre.
  assert (Hty : self_experiment_type st1 = self_experiment_type st)
    by (subst st1; by destruct filename).
  clearbody st1. clear Hpre. rewrite <- Hty.
  unfold bind at 1.
  destruct (py_iter results st1) as [[runs|e1] st2] eqn:Hiter;
    apply readonly_py_iter in Hiter as ->; [|by intros [= _ <-]].
  unfold bind at 1.
  destruct (map_M (resolve_run (OsPath.dirname (default "" filename))) runs st1)
    as [[dirs|e1] st2] eqn:Hmap;
    apply (readonly_map_M _ _ (readonly_resolve_run _)) in Hmap as ->;
    [|by intros [= _ <-]].
  rewrite bind_get_state.
  destruct (self_stats st1) as [i|] eqn:Hi.
  - unfold bind, stats_parse_all, get_state, ret.
    destruct (st_instances st1 !! i); by intros [= _ <-].
  - unfold bind, MininetSeismicStatistics, modify, stats_parse_all, get_state, ret. cbn.
    destruct (_ !! _); by intros [= _ <-].
Qed.

(** X17. [parse_file] returns [None] for a skipped file and for nothing
    else: when it returns, either the file was not JSON, the result is
    [None] and only the two log records were added, or the file was a
    document, the result is the one statistics object, and the type recorded
    is mininet.  It never returns on a file that cannot be opened. *)
Theorem X17_what_parse_file_returns fs fname st v st' :
  single_aggregate st →
  parse_file fs fname st = (Return v, st') →
  (∃ err, content fs fname = Some (NotJSON err)
          ∧ v = PNone ∧ st' = skipped fname err st)
  ∨ (∃ doc, content fs fname = Some (IsJSON doc)
            ∧ v = PStats 0 ∧ self_stats st' = Some 0%nat
            ∧ self_experiment_type st' = PStr "mininet").
Proof.
  intros Hinv. unfold parse_file. rewrite bind_log.
  set (st0 := add_log (Log DEBUG "parsing file: %s" [PStr fname]) st).
  assert (Hinv0 : single_aggregate st0) by done.
  destruct (content fs fname) as [[err|doc]|]; [| |discriminate].
  { intros [= <- <-]. left. by exists err. }
  intros H. right. exists doc. split; [done|].
  apply bind_Return_inv in H as (data & s1 & Hload & H).
  assert (Hinv1 : single_aggregate s1).
  { apply keeps_json_load in Hload as [Hi Hs]. by apply (single_aggregate_keeps st0). }
  apply bind_Return_inv in H as (params & s & Hget & H).
  apply readonly_py_getitem in Hget as ->.
  apply bind_Return_inv in H as (results & s & Hget & H).
  apply readonly_py_getitem in Hget as ->.
  apply bind_Return_inv in H as (p & s & Hget & H).
  apply readonly_py_getitem in Hget as ->.
  apply bind_Return_inv in H as (et & s & Hget & H).
  apply readonly_py_get in Hget as ->.
  apply bind_Return_inv in H as ([] & s2 & Hset & H).
  injection Hset as <-.
  apply bind_Return_inv in H as (params' & s3 & Hnorm & H).
  destruct params as [| | | | | |l|]; try discriminate Hnorm.
  destruct (extract_parameters_needs_dict _ _ _ _ _ Hnorm) as [d Hd].
  destruct (extract_parameters_Return _ _ _ _ _ _ Hd Hnorm)
    as (-> & Hty & (Hi3 & Hs3 & Ht3) & _).
  apply eq_str_true in Hty. cbn in Hty.
  assert (Hinv3 : single_aggregate s3) by by apply (single_aggregate_keeps s1).
  apply bind_Return_inv in H as (r & s4 & Hcall & H).
  apply bind_Return_inv in H as ([] & s5 & Hrec & H).
  injection Hrec as <-. injection H as <- <-.
  unfold call_extract_stats in Hcall.
  apply bind_Return_inv in Hcall as (kw & s & Hkw & Hcall).
  apply readonly_load in Hkw as ->.
  destruct (_ || _) in Hcall; [discriminate Hcall|].
  pose proof (extract_stats_type _ _ _ _ _ _ _ Hcall) as Ht4.
  destruct (extract_stats_single _ _ _ _ _ _ _ Hinv3 Hcall) as (_ & Hret).
  destruct (Hret r eq_refl) as (-> & Hs4 & _).
  split_and!; [done|done|]. rewrite Ht4, Ht3. exact Hty.
Qed.

(** X17 at work on the example result file. *)
Lemma X17_witness :
  ∃ st',
    parse_file example_fs "exp/results.json" init = (Return (PStats 0), st')
    ∧ self_stats st' = Some 0%nat
    ∧ self_experiment_type st' = PStr "mininet".
Proof.
  destruct document_params_overwritten as (st' & Hrun & _).
  exists st'. split; [exact Hrun|].
  destruct (X17_what_parse_file_returns example_fs "exp/results.json" init (PStats 0) st'
              eq_refl Hrun)
    as [(err & Hc & _)|(doc & _ & _ & Hs & Ht)].
  - discriminate Hc.
  - exact (conj Hs Ht).
Defined.

(** ** The assertion after the run *)

Lemma skipped_files_leave_stats fs files : ∀ st,
  Forall (not_json fs) files →
  ∃ st', parse_all fs None files st = (Return tt, st')
         ∧ self_stats st' = self_stats st ∧ st_instances st' = st_instances st.
Proof.
  induction files as [|f files IH]; intros st Hall.
  - by exists st.
  - apply Forall_cons in Hall as [[err Hc] Hall].
    destruct (IH (skipped f err st) Hall) as (st' & Hrun & Hs & Hi).
    exists st'. split; [|by split].
    cbn [parse_all for_each] in *. unfold bind at 1 2. unfold parse_file.
    rewrite bind_log, Hc. cbn [bind log modify ret]. exact Hrun.
Qed.

Lemma skipped_dirs_leave_stats fs ds : ∀ st,
  Forall (λ d, ∃ names, listdir fs d = Some names
                        ∧ Forall (not_json fs) (eligible fs d names)) ds →
  ∃ st', parse_all fs (Some ds) [] st = (Return tt, st')
         ∧ self_stats st' = self_stats st ∧ st_instances st' = st_instances st.
Proof.
  induction ds as [|d ds IH]; intros st Hall.
  - by exists st.
  - apply Forall_cons in Hall as [(names & Hl & Hn) Hall].
    pose proof (parse_dir_as_files fs d st) as Hd. cbn zeta in Hd. rewrite Hl in Hd.
    destruct (skipped_files_leave_stats fs _
                (add_log (Log DEBUG "parsing dir: %s" [PStr d]) st) Hn)
      as (st1 & Hrun1 & Hs1 & Hi1).
    destruct (IH st1 Hall) as (st' & Hrun & Hs & Hi).
    cbn [self_stats st_instances add_log] in Hs1, Hi1.
    exists st'. split; [|split; congruence].
    cbn [parse_all for_each] in *. unfold bind at 1. by rewrite Hd, Hrun1.
Qed.

(** X18. The script's assertion after [parse_all]: a run in which every
    file is skipped, or none is given, ends in AssertionError, in file mode
    and in directory mode, since no statistics object was ever made; and a
    run that passes the assertion has exactly one statistics object, the one
    [self.stats] refers to. *)
Theorem X18_assertion_after_the_run fs :
  (∀ files, Forall (not_json fs) files →
            fst (main_until_assert fs None files) = Raise AssertionError)
  ∧ (∀ ds files,
       Forall (λ d, ∃ names, listdir fs d = Some names
                             ∧ Forall (not_json fs) (eligible fs d names)) ds →
       fst (main_until_assert fs (Some ds) files) = Raise AssertionError)
  ∧ (∀ dirs files st',
       main_until_assert fs dirs files = (Return tt, st') →
       self_stats st' = Some 0%nat ∧ List.length (st_instances st') = 1%nat).
Proof.
  split_and!.
  - intros files Hall.
    destruct (skipped_files_leave_stats fs files init Hall) as (st' & Hrun & Hs & _).
    unfold main_until_assert, bind. rewrite Hrun. cbn [get_state]. by rewrite Hs.
  - intros ds files Hall.
    destruct (skipped_dirs_leave_stats fs ds init Hall) as (st' & Hrun & Hs & _).
    unfold main_until_assert, bind. cbn [parse_all] in *. rewrite Hrun.
    cbn [get_state]. by rewrite Hs.
  - intros dirs files st'. unfold main_until_assert, bind.
    destruct (parse_all fs dirs files init) as [[[]|e] st1] eqn:Hrun; [|discriminate].
    assert (Hinv : single_aggregate st1).
    { apply (preserves_parse_all fs dirs files init (Return tt) st1); [done|exact Hrun]. }
    cbn [get_state]. unfold single_aggregate in Hinv.
    destruct (self_stats st1) as [i|] eqn:Hi; [|discriminate].
    intros [= <-]. destruct Hinv as [-> Hlen]. by rewrite Hi.
Qed.

Lemma notes_not_json : Forall (not_json example_fs) ["exp/notes.txt"].
Proof. repeat constructor. by eexists. Qed.

(** X18 at work: with the stray text file as the only input the script
    fails its assertion. *)
Lemma X18_witness :
  fst (main_until_assert example_fs None ["exp/notes.txt"]) = Raise AssertionError.
Proof.
  exact (proj1 (X18_assertion_after_the_run example_fs) _ notes_not_json).
Defined.

(** ** Documents without [experiment_type] *)

Lemma extract_parameters_no_type l et st d hv :
  st_heap st !! l = Some d →
  d !! "heuristic" = Some hv →
  d !! "experiment_type" = None →
  ∃ st', extract_parameters l et st = (Raise (KeyError (PStr "experiment_type")), st')
         ∧ frame st st'.
Proof.
  intros Hl Hh He.
  destruct (extract_parameters_computes l et st d Hl) as (st' & Hrun & _ & Hfr & _).
  unfold normal_form in Hrun. rewrite Hh in Hrun.
  rewrite lookup_insert_ne, lookup_delete_ne, He in Hrun by done.
  by exists st'.
Qed.

(** X19. The default type never applies: for a document whose [params]
    lacks [experiment_type], [parse_file] records the type networkx and then
    fails in [extract_parameters] with KeyError, for [heuristic] when that
    is missing too and for [experiment_type] otherwise.  The
    NotImplementedError of the networkx branch is not reached, and no
    statistics object is touched. *)
Theorem X19_default_type_never_applies fs fname doc st h1 lp dp :
  content fs fname = Some (IsJSON doc) →
  decoded_document doc (st_heap st) h1 lp dp →
  dp !! "experiment_type" = None →
  ∃ st',
    parse_file fs fname st
    = (Raise (KeyError (PStr (match dp !! "heuristic" with
                              | Some _ => "experiment_type"
                              | None => "heuristic"
                              end))), st')
    ∧ self_experiment_type st' = PStr "networkx"
    ∧ st_instances st' = st_instances st
    ∧ self_stats st' = self_stats st.
Proof.
  intros Hc (ld & dd & rv & Hdec & Hld & Hp & Hr & Hlp) Het.
  unfold parse_file. rewrite bind_log, Hc.
  set (st0 := add_log (Log DEBUG "parsing file: %s" [PStr fname]) st).
  unfold bind at 1. unfold json_load.
  change (st_heap st0) with (st_heap st). rewrite Hdec.
  set (s1 := set_heap h1 st0).
  assert (H1 : st_heap s1 !! ld = Some dd) by exact Hld.
  assert (H1p : st_heap s1 !! lp = Some dp) by exact Hlp.
  cbn [py_getitem].
  rewrite (bind_dict_getitem ld dd s1 "params" H1), Hp.
  rewrite (bind_dict_getitem ld dd s1 "results" H1), Hr.
  rewrite (bind_dict_getitem ld dd s1 "params" H1), Hp.
  cbn [py_get]. rewrite (bind_dict_get lp dp s1 "experiment_type" H1p), Het.
  cbn [default]. unfold bind at 1. cbn [modify].
  set (s2 := set_experiment_type (PStr "networkx") s1).
  assert (H2p : st_heap s2 !! lp = Some dp) by exact Hlp.
  unfold bind at 1.
  destruct (dp !! "heuristic") as [hv|] eqn:Hh.
  - destruct (extract_parameters_no_type lp PNone s2 dp hv H2p Hh Het)
      as (s3 & -> & Hi & Hs & Ht).
    exists s3. split_and!; [done|by rewrite Ht|by rewrite Hi|by rewrite Hs].
  - rewrite (extract_parameters_no_heuristic lp PNone s2 dp H2p Hh).
    by exists s2.
Qed.

Lemma legacy_decoded :
  decoded_document legacy_doc (st_heap init) legacy_store 1%positive legacy_params
  ∧ legacy_params !! "experiment_type" = None
  ∧ legacy_params !! "heuristic" = Some (PStr "steiner").
Proof.
  split_and!; [|vm_compute; reflexivity..].
  exists 2%positive, (default ∅ (legacy_store !! 2%positive)), (PList []).
  split_and!; vm_compute; reflexivity.
Qed.

(** X19 at work on the legacy document. *)
Lemma X19_witness :
  ∃ st',
    parse_file example_fs "legacy.json" init
    = (Raise (KeyError (PStr "experiment_type")), st')
    ∧ self_experiment_type st' = PStr "networkx".
Proof.
  destruct legacy_decoded as (Hdoc & Het & Hh).
  destruct (X19_default_type_never_applies example_fs "legacy.json" legacy_doc init
              legacy_store 1%positive legacy_params eq_refl Hdoc Het)
    as (st' & Hrun & Hty & _).
  rewrite Hh in Hrun. exists st'. exact (conj Hrun Hty).
Defined.
